(** * pcse_gym: reward bookkeeping, price tables and nitrogen helpers

  A shallow embedding of [pcse_gym/envs/rewards.py] and
  [pcse_gym/utils/nitrogen_helpers.py].

  Conventions of the embedding.
  - Python numbers are exact rationals ([Qc], canonical fractions with
    Leibniz equality): a decimal literal such as [0.339] stands for the
    fraction 339/1000 and the operators are the field operations.  The
    rounding of binary64 arithmetic is not part of the model.  The one
    function that calls [np.exp] is stated over the real numbers.
  - A call that can raise returns a [result]: [Ok v] or [Raise e].
  - Objects mutated in place (the reward containers) are passed in and
    returned.
  - A Python dict is a [gmap]; [d[k]] on a missing key raises [KeyError]. *)

From Stdlib Require Import ZArith QArith Qcanon Reals Lra Lia.
From Stdlib Require Lqa.
From stdpp Require Import base option numbers list gmap strings.

Local Open Scope Z_scope.

(** ** The Python values and library calls the code relies on *)

Module Py.

Inductive exn :=
| AssertionError | TypeError | KeyError | IndexError | ValueError
| ZeroDivisionError | AttributeError | RecursionError.

Inductive result (A : Type) :=
| Ok (a : A)
| Raise (e : exn).
Arguments Ok {A} a.
Arguments Raise {A} e.

#[global] Instance result_ret : MRet result := @Ok.
#[global] Instance result_bind : MBind result :=
  fun A B f m => match m with Ok a => f a | Raise e => Raise e end.

(** The value of a decimal literal. *)
Definition num (q : Q) : Qc := Q2Qc q.
Arguments num q%_Q.

(** An [int] used in arithmetic with other numbers. *)
Definition of_int (z : Z) : Qc := Q2Qc (inject_Z z).

(** [a / b]. *)
Definition truediv (a b : Qc) : result Qc :=
  if decide (b = 0%Qc) then Raise ZeroDivisionError else Ok (a / b)%Qc.

(** [d[k]] on a dict. *)
Definition getitem `{Countable K} {V} (d : gmap K V) (k : K) : result V :=
  match d !! k with
  | Some v => Ok v
  | None => Raise KeyError
  end.

(** [l[-1]] on a list. *)
Definition getitem_last {A} (l : list A) : result A :=
  match last l with
  | Some a => Ok a
  | None => Raise IndexError
  end.

(** [calendar.isleap]. *)
Definition isleap (year : Z) : bool :=
  (year mod 4 =? 0) && (negb (year mod 100 =? 0) || (year mod 400 =? 0)).

(** [max(a, b)] and [min(a, b)]: the first argument unless the second is
    strictly larger (smaller). *)
Definition max_ (a b : Qc) : Qc := if bool_decide (a < b)%Qc then b else a.
Definition min_ (a b : Qc) : Qc := if bool_decide (b < a)%Qc then b else a.

(** [abs(a)]. *)
Definition abs_ (a : Qc) : Qc := if bool_decide (a < 0)%Qc then (- a)%Qc else a.

(** [int(a)]: truncation towards zero. *)
Definition int_ (a : Qc) : Z := Z.quot (Qnum (this a)) (Zpos (Qden (this a))).

(** [sub in s] on strings. *)
Fixpoint contains (sub s : string) : bool :=
  String.prefix sub s
  || match s with
     | EmptyString => false
     | String _ rest => contains sub rest
     end.

#[global] Instance exn_eq_dec : EqDecision exn.
Proof. solve_decision. Defined.

#[global] Instance result_eq_dec `{EqDecision A} : EqDecision (result A).
Proof. solve_decision. Defined.

End Py.

Export Py.

(** [datetime.date]: construction, ordering and subtraction, after the
  reference implementation of the standard library. *)

Module datetime.

Record date := Date { year : Z; month : Z; day : Z }.

#[global] Instance date_eq_dec : EqDecision date.
Proof. solve_decision. Defined.

Definition MINYEAR : Z := 1.
Definition MAXYEAR : Z := 9999.

Definition _DAYS_IN_MONTH : list Z :=
  [-1; 31; 28; 31; 30; 31; 30; 31; 31; 30; 31; 30; 31].

Definition _DAYS_BEFORE_MONTH : list Z :=
  [-1; 0; 31; 59; 90; 120; 151; 181; 212; 243; 273; 304; 334].

Definition _days_before_year (year : Z) : Z :=
  let y := year - 1 in
  y * 365 + y / 4 - y / 100 + y / 400.

Definition _days_in_month (year month : Z) : Z :=
  if (month =? 2) && isleap year then 29
  else nth (Z.to_nat month) _DAYS_IN_MONTH 0.

Definition _days_before_month (year month : Z) : Z :=
  nth (Z.to_nat month) _DAYS_BEFORE_MONTH 0
  + (if (2 <? month) && isleap year then 1 else 0).

Definition _ymd2ord (year month day : Z) : Z :=
  _days_before_year year + _days_before_month year month + day.

Definition _check_date_fields (year month day : Z) : bool :=
  (MINYEAR <=? year) && (year <=? MAXYEAR)
  && (1 <=? month) && (month <=? 12)
  && (1 <=? day) && (day <=? _days_in_month year month).

(** [datetime.date(year, month, day)]. *)
Definition new (year month day : Z) : result date :=
  if _check_date_fields year month day then Ok (Date year month day)
  else Raise ValueError.

(** The dates that the constructor can return. *)
Definition valid (d : date) : Prop :=
  _check_date_fields (year d) (month d) (day d) = true.

Definition toordinal (d : date) : Z :=
  _ymd2ord (year d) (month d) (day d).

(** [a < b]: comparison of the triples (year, month, day). *)
Definition lt (a b : date) : bool :=
  (year a <? year b)
  || ((year a =? year b)
      && ((month a <? month b)
          || ((month a =? month b) && (day a <? day b)))).

(** [(a - b).days]. *)
Definition sub_days (a b : date) : Z := toordinal a - toordinal b.

(** Each date of the list is before the next one. *)
Definition increasing (dates : list date) : Prop :=
  forall i d d',
    dates !! i = Some d -> dates !! S i = Some d' -> lt d d' = true.

End datetime.

(** ** pcse_gym/utils/nitrogen_helpers.py *)

Module nitrogen_helpers.

(** The simulator output: a list of records keyed by variable name. *)
Abbreviation Output := (list (gmap string Qc)).

Definition L_to_m3 : Qc := num 0.001.
Definition m2_to_ha : Qc := num 0.0001.

(** Returns the pair (NH4, NO3). *)
Definition get_deposition_amount (year : option Z) : Qc * Qc :=
  match year with
  | None => (num 9, num 3)
  | Some y =>
      if (1900 <? y) && (2030 <? y) then (num 9, num 3)
      else ((num 697 - num 0.339 * of_int y)%Qc,
            (num 538.868 - num 0.264 * of_int y)%Qc)
  end.

Definition get_days_in_year (year : option Z) : result Z :=
  match year with
  | None => Raise TypeError
  | Some y => Ok (365 + (if isleap y then 1 else 0))
  end.

(** The function calls itself; [depth] bounds the nesting of the calls,
    as the interpreter's recursion limit does. *)
Fixpoint get_disaggregated_deposition_rec (depth : nat) (year : option Z)
    (start_date end_date : datetime.date) : result (Qc * Qc) :=
  match depth with
  | O => Raise RecursionError
  | S depth' =>
      if negb (datetime.lt start_date end_date) then Raise AssertionError
      else if negb (datetime.year start_date =? datetime.year end_date) then
        dec31 ← datetime.new (datetime.year start_date) 12 31;
        '(nh4_s, no3_s) ← get_disaggregated_deposition_rec depth'
            (Some (datetime.year start_date)) start_date dec31;
        jan1 ← datetime.new (datetime.year end_date) 1 1;
        '(nh4_e, no3_e) ← get_disaggregated_deposition_rec depth'
            (Some (datetime.year end_date)) jan1 end_date;
        Ok ((nh4_s + nh4_e)%Qc, (no3_s + no3_e)%Qc)
      else
        let date_range := datetime.sub_days end_date start_date in
        let '(nh4_full, no3_full) := get_deposition_amount year in
        days_nh4 ← get_days_in_year year;
        daily_nh4 ← truediv nh4_full (of_int days_nh4);
        days_no3 ← get_days_in_year year;
        daily_no3 ← truediv no3_full (of_int days_no3);
        Ok ((daily_nh4 * of_int date_range)%Qc,
            (daily_no3 * of_int date_range)%Qc)
  end.

Definition recursion_limit : nat := 1000.

Definition get_disaggregated_deposition :=
  get_disaggregated_deposition_rec recursion_limit.

Definition get_nh4_deposition_pcse (output : Output) : result Qc :=
  record ← getitem_last output;
  raw ← getitem record "RNH4DEPOSTT"%string;
  truediv raw m2_to_ha.

Definition get_no3_deposition_pcse (output : Output) : result Qc :=
  record ← getitem_last output;
  raw ← getitem record "RNO3DEPOSTT"%string;
  truediv raw m2_to_ha.

Definition get_n_deposition_pcse (output : Output) : result Qc :=
  no3 ← get_no3_deposition_pcse output;
  nh4 ← get_nh4_deposition_pcse output;
  truediv (no3 + nh4)%Qc m2_to_ha.

Definition n_seed_default : Qc := num 3.5.

Definition input_nue (n_input : Qc) (year : option Z)
    (start end_ : option datetime.date) (n_seed : Qc)
    (no3_depo nh4_depo : option Qc) : result Qc :=
  '(nh4, no3) ←
    (if (bool_decide (start = None) || bool_decide (end_ = None))
        && (bool_decide (no3_depo = None) || bool_decide (nh4_depo = None))
     then Ok (get_deposition_amount year)
     else if (bool_decide (start = None) || bool_decide (end_ = None))
             && (bool_decide (no3_depo ≠ None) || bool_decide (nh4_depo ≠ None))
     then
       match nh4_depo, no3_depo with
       | Some nh4, Some no3 => Ok (nh4, no3)
       | _, _ => Raise TypeError
       end
     else
       match year with
       | None => Raise AssertionError
       | Some y =>
           if y <? 2500 then
             match start, end_ with
             | Some s, Some e => get_disaggregated_deposition year s e
             | _, _ => Raise TypeError
             end
           else Ok (get_deposition_amount year)
       end);
  let n_depo := (nh4 + no3)%Qc in
  Ok (n_input + n_seed + n_depo)%Qc.

Definition get_surplus_n (n_input n_so : Qc) (year : option Z)
    (start end_ : option datetime.date) (n_seed : Qc)
    (no3_depo nh4_depo : option Qc) : result Qc :=
  n_i ← input_nue n_input year start end_ n_seed no3_depo nh4_depo;
  Ok (n_i - n_so)%Qc.

(** [y_rand in range(train_year_start - 1, train_year_end + 1)], then a
    linear map on the training years; the result is truncated by [int]. *)
Definition map_random_to_real_year (y_rand test_year_start test_year_end
    train_year_start train_year_end : Z) : result Z :=
  if (train_year_start - 1 <=? y_rand) && (y_rand <? train_year_end + 1) then
    slope ← truediv
      (of_int ((y_rand - train_year_start) * (test_year_end - test_year_start)))
      (of_int (train_year_end - train_year_start));
    let y_real := (of_int test_year_start + slope)%Qc in
    Ok (int_ y_real)
  else
    let y_real := y_rand in
    Ok y_real.

Definition test_year_start_default : Z := 1990.
Definition test_year_end_default : Z := 2022.
Definition train_year_start_default : Z := 4000.
Definition train_year_end_default : Z := 5999.




Definition treatments_list : list string :=
  ["N1-PA"; "N2-PA"; "N3-PA";
   "N1-DE"; "N2-DE"; "N3-DE";
   "N1-DB"; "N2-DB"; "N3-DB";
   "N1-WA"; "N2-WA"; "N3-WA"]%string.

Definition treatment_dates (treatment : string) (year : Z)
    : result (list datetime.date) :=
  if negb (bool_decide (treatment ∈ treatments_list)) then Raise AssertionError
  else if contains "-PA" treatment then
    d1 ← datetime.new year 2 17; d2 ← datetime.new year 5 11;
    d3 ← datetime.new year 6 21;
    Ok [d1; d2; d3]
  else if contains "-DE" treatment then
    d1 ← datetime.new year 2 17; d2 ← datetime.new year 5 14;
    d3 ← datetime.new year 6 8;
    Ok [d1; d2; d3]
  else if contains "-DB" treatment then
    d1 ← datetime.new year 2 17; d2 ← datetime.new year 5 9;
    d3 ← datetime.new year 6 6;
    Ok [d1; d2; d3]
  else if contains "-WA" treatment then
    d1 ← datetime.new year 3 12; d2 ← datetime.new year 4 10;
    d3 ← datetime.new year 4 22; d4 ← datetime.new year 5 26;
    Ok [d1; d2; d3; d4]
  else Ok [].

Definition treatment_amounts (treatment : string) : result (list Z) :=
  if negb (bool_decide (treatment ∈ treatments_list)) then Raise AssertionError
  else if contains "-PA" treatment then
    if contains "N1" treatment then Ok [80; 0; 0]
    else if contains "N2" treatment then Ok [60; 80; 80]
    else Ok [60; 140; 40]
  else if contains "-DB" treatment then
    if contains "N1" treatment then Ok [70; 0; 0]
    else if contains "N2" treatment then Ok [70; 60; 40]
    else Ok [70; 120; 40]
  else if contains "-DE" treatment then
    if contains "N1" treatment then Ok [50; 60; 0]
    else if contains "N2" treatment then Ok [50; 60; 40]
    else Ok [50; 60; 40]
  else if contains "-WA" treatment then
    if contains "N1" treatment then Ok [110; 0; 0; 40]
    else if contains "N2" treatment then Ok [110; 0; 60; 40]
    else Ok [110; 80; 60; 40]
  else Ok [].

Definition get_standard_practices (treatment : string) (year : Z)
    : result (list datetime.date * list Z) :=
  dates ← treatment_dates treatment year;
  amounts ← treatment_amounts treatment;
  Ok (dates, amounts).

End nitrogen_helpers.

(** ** pcse_gym/utils/process_pcse_output.py

    The module is imported by [rewards.py] as [process_pcse].  The reward
    code is verified for every implementation of its functions: they are an
    interface that the code is parameterised by.  A baseline output may be
    [None]. *)

Class process_pcse := {
  compute_growth_storage_organ :
    option nitrogen_helpers.Output -> Z -> Qc -> result Qc
}.

(** ** pcse_gym/envs/rewards.py *)

Module rewards.

Import nitrogen_helpers.

(** [not x] for an optional list: [None] and the empty list are false. *)
Definition falsy {A} (x : option (list A)) : bool :=
  match x with
  | None => true
  | Some l => bool_decide (l = [])
  end.

(** Anything with a [calculate_amount] method can be handed to
    [return_reward] as [obj]. *)
Class ActionsCounter (C : Type) := {
  calculate_amount : C -> Qc -> C;
  get_total_fertilization : C -> Qc
}.

Definition get_min_yield (loc : string) : Qc :=
  if bool_decide (loc = "52.57-5.63"%string) then num 5484.75
  else num 5484.75.

Definition get_max_yield (loc : string) : Qc :=
  if bool_decide (loc = "52.57-5.63"%string) then num 9500
  else num 9500.

Definition loc_default : string := "52.57-5.63".

(** [class Rewards]: the reward classes and their containers. *)

Module Rewards.

(** *** Containers *)

Module ContainerEND.

Record t := Build {
  timestep : Z;
  costs_nitrogen : Qc;
  cum_growth : Qc;
  cum_amount : Qc;
  cum_positive_reward : Qc;
  cum_cost : Qc;
  cum_misc_cost : Qc;
  cum_leach : Qc;
  actions : Qc
}.

Definition costs_nitrogen_default : Qc := num 10.0.

(** [__init__]. *)
Definition init (timestep : Z) (costs_nitrogen : Qc) : t :=
  Build timestep costs_nitrogen 0 0 0 0 0 0 0.

Definition reset (self : t) : t :=
  Build (timestep self) (costs_nitrogen self) 0 0 0 0 0 0 0.

Definition growth_storage_organ_wo_cost `{process_pcse} (self : t)
    (output : Output) (multiplier : Qc) : result Qc :=
  compute_growth_storage_organ (Some output) (timestep self) multiplier.

Definition default_winterwheat_reward_wo_cost `{process_pcse} (self : t)
    (output : Output) (output_baseline : option Output) (multiplier : Qc)
    : result Qc :=
  growth ← compute_growth_storage_organ (Some output) (timestep self) multiplier;
  growth_baseline ←
    compute_growth_storage_organ output_baseline (timestep self) multiplier;
  let benefits := (growth - growth_baseline)%Qc in
  Ok benefits.

Definition calculate_amount (self : t) (action : Qc) : t :=
  Build (timestep self) (costs_nitrogen self) (cum_growth self)
    (cum_amount self) (cum_positive_reward self) (cum_cost self)
    (cum_misc_cost self) (cum_leach self) (actions self + action).

Definition calculate_cost_cumulative (self : t) (amount : Qc) : t :=
  Build (timestep self) (costs_nitrogen self) (cum_growth self)
    (cum_amount self + amount) (cum_positive_reward self)
    (cum_cost self + amount * costs_nitrogen self)
    (cum_misc_cost self) (cum_leach self) (actions self).

Definition calculate_misc_cumulative_cost (self : t) (cost : Qc) : t :=
  Build (timestep self) (costs_nitrogen self) (cum_growth self)
    (cum_amount self) (cum_positive_reward self) (cum_cost self)
    (cum_misc_cost self + cost) (cum_leach self) (actions self).

(** Returns the outcome of the call together with the object after it: when
    the growth computation raises, the object is left as it was. *)
Definition calculate_positive_reward_cumulative `{process_pcse} (self : t)
    (output : Output) (output_baseline : option Output) (multiplier : Qc)
    : result unit * t :=
  match (if falsy output_baseline
         then growth_storage_organ_wo_cost self output multiplier
         else default_winterwheat_reward_wo_cost self output output_baseline
                multiplier) with
  | Ok benefits =>
      (Ok (),
       Build (timestep self) (costs_nitrogen self) (cum_growth self)
         (cum_amount self) (cum_positive_reward self + benefits)
         (cum_cost self) (cum_misc_cost self) (cum_leach self) (actions self))
  | Raise e => (Raise e, self)
  end.

Definition calculate_cost_n (self : t) (amount : Qc) : t :=
  Build (timestep self) (costs_nitrogen self) (cum_growth self)
    (cum_amount self + amount) (cum_positive_reward self) (cum_cost self)
    (cum_misc_cost self) (cum_leach self) (actions self).

Definition calculate_n_loss (self : t) (n_loss : Qc) : t :=
  Build (timestep self) (costs_nitrogen self) (cum_growth self)
    (cum_amount self) (cum_positive_reward self) (cum_cost self)
    (cum_misc_cost self) (cum_leach self + n_loss) (actions self).

Definition dump_cumulative_positive_reward (self : t) : Qc :=
  cum_positive_reward self.

Definition dump_cumulative_cost (self : t) : Qc :=
  (cum_cost self + cum_misc_cost self)%Qc.

#[global] Instance actions_counter : ActionsCounter t := {|
  rewards.calculate_amount := calculate_amount;
  rewards.get_total_fertilization := actions
|}.

End ContainerEND.

(** *** Reward functions *)

(** The fields that every [Rew] subclass sets in [__init__]. *)
Module Rew.

Record t := Build { timestep : Z; costs_nitrogen : Qc }.

End Rew.

(** Each [return_reward] returns the outcome of the call and [obj] after it;
    [obj] is updated before the growth is computed, so the update stays when
    the computation raises. *)

Module DEF.

(** [__init__]. *)
Definition init (timestep : Z) (costs_nitrogen : Qc) : Rew.t :=
  Rew.Build timestep costs_nitrogen.

Definition return_reward `{process_pcse} {C : Type} `{!ActionsCounter C}
    (self : Rew.t)
    (output : Output) (amount : Qc) (output_baseline : option Output)
    (multiplier : Qc) (obj : option C) : result (Qc * Qc) * option C :=
  match obj with
  | None => (Raise AttributeError, None)
  | Some c =>
      let c := calculate_amount c amount in
      (growth ← compute_growth_storage_organ (Some output)
                  (Rew.timestep self) multiplier;
       growth_baseline ← compute_growth_storage_organ output_baseline
                           (Rew.timestep self) multiplier;
       let benefits := (growth - growth_baseline)%Qc in
       let costs := (Rew.costs_nitrogen self * amount)%Qc in
       let reward := (benefits - costs)%Qc in
       Ok (reward, growth),
       Some c)
  end.

End DEF.

Module GRO.

(** [__init__]. *)
Definition init (timestep : Z) (costs_nitrogen : Qc) : Rew.t :=
  Rew.Build timestep costs_nitrogen.

Definition return_reward `{process_pcse} {C : Type} `{!ActionsCounter C}
    (self : Rew.t)
    (output : Output) (amount : Qc) (output_baseline : option Output)
    (multiplier : Qc) (obj : option C) : result (Qc * Qc) * option C :=
  match obj with
  | None => (Raise AttributeError, None)
  | Some c =>
      let c := calculate_amount c amount in
      (growth ← compute_growth_storage_organ (Some output)
                  (Rew.timestep self) multiplier;
       let costs := (Rew.costs_nitrogen self * amount)%Qc in
       let reward := (growth - costs)%Qc in
       Ok (reward, growth),
       Some c)
  end.

End GRO.

Module ContainerNUE.





(** The remaining static methods work on the numbers of the container. *)

Definition nue_condition_simple (b lower_bound upper_bound : Qc) : Qc :=
  if bool_decide (b < lower_bound)%Qc then 0%Qc
  else if bool_decide (lower_bound <= b)%Qc && bool_decide (b <= upper_bound)%Qc
  then 1%Qc
  else 0%Qc.



Definition nue_formula (nue nue_width : Qc) : result Qc :=
  q ← truediv (abs_ (nue - num 0.7) - num 0.2)%Qc nue_width;
  let base_nue := max_ 0%Qc (min_ 1%Qc (1 - q)%Qc) in
  Ok base_nue.

Definition n_surplus_penalty (nsurplus reduction : Qc) : Qc :=
  if bool_decide (0 < nsurplus)%Qc && bool_decide (nsurplus <= num 40)%Qc
  then 0%Qc
  else (reduction * min_ (abs_ nsurplus) (abs_ (nsurplus - num 40)))%Qc.

Definition n_surplus_formula (n_surplus nue nsurp_width nue_width : Qc)
    : result Qc :=
  q_nsurp ← truediv (abs_ (n_surplus - num 20) - num 20)%Qc nsurp_width;
  let base_nsurp := max_ 0%Qc (min_ 1%Qc (1 - q_nsurp)%Qc) in
  q_nue ← truediv (abs_ (nue - num 0.7) - num 0.2)%Qc nue_width;
  let base_nue := max_ 0%Qc (min_ 1%Qc (1 - q_nue)%Qc) in
  Ok (base_nsurp * base_nue)%Qc.

Definition nue_simple_lower_bound_default : Qc := num 0.5.
Definition nue_simple_upper_bound_default : Qc := num 0.9.

Definition n_surplus_formula_piecewise (n_surplus nue nsurp_width nue_width : Qc)
    : result Qc :=
  q_nsurp ← truediv (abs_ (n_surplus - num 20) - num 20)%Qc nsurp_width;
  let base_nsurp := max_ 0%Qc (min_ 1%Qc (1 - q_nsurp)%Qc) in
  let base_nue :=
    nue_condition_simple nue nue_simple_lower_bound_default
      nue_simple_upper_bound_default in
  Ok (base_nsurp * base_nue)%Qc.

Definition nsurp_width_default : Qc := num 100.
Definition nue_width_default : Qc := num 1.

(** The defaults [maxy] and [miny] are evaluated when the class is defined,
    for the default location. *)
Definition maxy_default : Qc := get_max_yield loc_default.
Definition miny_default : Qc := get_min_yield loc_default.

Definition normalize_yield (y maxy miny : Qc) : result Qc :=
  q ← truediv (y - miny)%Qc (maxy - miny)%Qc;
  Ok (max_ 0%Qc q).

Definition include_yield_req (req y : Qc) : Qc :=
  if bool_decide (req = 1%Qc) then y else 0%Qc.

Definition formula_nue (n_surplus nue end_yield : Qc) (piecewise_nue : bool)
    : result Qc :=
  nsurp_value ←
    (if negb piecewise_nue
     then n_surplus_formula n_surplus nue nsurp_width_default nue_width_default
     else n_surplus_formula_piecewise n_surplus nue nsurp_width_default
            nue_width_default);
  normalized_yield ← normalize_yield end_yield maxy_default miny_default;
  Ok (nsurp_value + include_yield_req nsurp_value normalized_yield)%Qc.

(** The values of the local variables [base_nsurp] and [base_nue] of
    [n_surplus_formula] when the widths are left to their defaults, 100 and
    1. *)
Definition base_nsurp (n_surplus : Qc) : Qc :=
  max_ 0%Qc
    (min_ 1%Qc (1 - (abs_ (n_surplus - num 20) - num 20) / num 100)%Qc).

Definition base_nue (nue : Qc) : Qc :=
  max_ 0%Qc (min_ 1%Qc (1 - (abs_ (nue - num 0.7) - num 0.2) / num 1)%Qc).

End ContainerNUE.

(** A container for the cumulative ratio of grain to nitrogen. *)

Module ContainerANE.

Record t := Build {
  timestep : Z;
  cum_growth : Qc;
  cum_baseline_growth : Qc;
  cum_amount : Qc;
  moving_ane : Qc
}.

Definition init (timestep : Z) : t := Build timestep 0 0 0 0.

(** Returns the outcome and the object after the call; both growths are
    computed before any field is updated. *)
Definition cumulative `{process_pcse} (self : t) (output : Output)
    (output_baseline : option Output) (amount multiplier : Qc)
    : result Qc * t :=
  match (growth ← compute_growth_storage_organ (Some output) (timestep self)
                    multiplier;
         growth_baseline ← compute_growth_storage_organ output_baseline
                             (timestep self) multiplier;
         Ok (growth, growth_baseline)) with
  | Ok (growth, growth_baseline) =>
      (Ok growth,
       Build (timestep self) (cum_growth self + growth)
         (cum_baseline_growth self + growth_baseline)
         (cum_amount self + amount) (moving_ane self))
  | Raise e => (Raise e, self)
  end.

Definition reward `{process_pcse} (self : t) (output : Output)
    (output_baseline : option Output) (amount : Qc)
    : result (Qc * Qc) * t :=
  match cumulative self output output_baseline amount 1%Qc with
  | (Raise e, self) => (Raise e, self)
  | (Ok growth, self) =>
      let benefit := (cum_growth self - cum_baseline_growth self)%Qc in
      if bool_decide (cum_amount self = 0%Qc) then
        (ane ← truediv benefit 1%Qc;
         Ok ((ane - amount)%Qc, growth),
         self)
      else
        match truediv benefit (cum_amount self) with
        | Ok ane =>
            (Ok ((ane - amount)%Qc, growth),
             Build (timestep self) (cum_growth self)
               (cum_baseline_growth self) (cum_amount self) ane)
        | Raise e => (Raise e, self)
        end
  end.

Definition reset (self : t) : t :=
  Build (timestep self) 0 0 0 (moving_ane self).

End ContainerANE.

(** The reward classes that keep a [ContainerEND] up to date. *)

Module DEP.

Definition various_costs : gmap string Qc :=
  {[ "to_the_field"%string := num 10;
     "fertilizer"%string := num 1;
     "environmental"%string := num 2 ]}.

Definition return_reward `{process_pcse} {C : Type} `{!ActionsCounter C}
    (self : Rew.t)
    (output : Output) (amount : Qc) (output_baseline : option Output)
    (multiplier : Qc) (obj : option C) : result (Qc * Qc) * option C :=
  match obj with
  | None => (Raise AttributeError, None)
  | Some c =>
      let c := calculate_amount c amount in
      (cost_deployment ←
         (if bool_decide (amount = 0%Qc) then Ok 0%Qc
          else getitem various_costs "to_the_field"%string);
       growth ← compute_growth_storage_organ (Some output)
                  (Rew.timestep self) multiplier;
       let costs := (Rew.costs_nitrogen self * amount + cost_deployment)%Qc in
       let reward := (growth - costs)%Qc in
       Ok (reward, growth),
       Some c)
  end.

End DEP.

Module END.

Definition return_reward `{process_pcse} (self : Rew.t)
    (output : Output) (amount : Qc) (output_baseline : option Output)
    (multiplier : Qc) (obj : option ContainerEND.t)
    : result (Qc * Qc) * option ContainerEND.t :=
  match obj with
  | None => (Raise AttributeError, None)
  | Some c =>
      let c := ContainerEND.calculate_amount c amount in
      let c := ContainerEND.calculate_cost_cumulative c amount in
      match ContainerEND.calculate_positive_reward_cumulative c output
              output_baseline 1%Qc with
      | (Raise e, c) => (Raise e, Some c)
      | (Ok _, c) =>
          (let reward := (0 - amount * Rew.costs_nitrogen self)%Qc in
           growth ← compute_growth_storage_organ (Some output)
                      (Rew.timestep self) multiplier;
           Ok (reward, growth),
           Some c)
      end
  end.

End END.

Module NUE.

Definition return_reward `{process_pcse} (self : Rew.t)
    (output : Output) (amount : Qc) (output_baseline : option Output)
    (multiplier : Qc) (obj : option ContainerEND.t)
    : result (Qc * Qc) * option ContainerEND.t :=
  match obj with
  | None => (Raise AttributeError, None)
  | Some c =>
      let c := ContainerEND.calculate_amount c amount in
      let c := ContainerEND.calculate_cost_cumulative c amount in
      match ContainerEND.calculate_positive_reward_cumulative c output
              output_baseline multiplier with
      | (Raise e, c) => (Raise e, Some c)
      | (Ok _, c) =>
          (let reward :=
             if bool_decide (0 < amount)%Qc
             then (0 - Rew.costs_nitrogen self)%Qc
             else 0%Qc in
           growth ← compute_growth_storage_organ (Some output)
                      (Rew.timestep self) multiplier;
           Ok (reward, growth),
           Some c)
      end
  end.

End NUE.

Module DNE.

Definition return_reward `{process_pcse} (self : Rew.t)
    (output : Output) (amount : Qc) (output_baseline : option Output)
    (multiplier : Qc) (obj : option ContainerEND.t)
    : result (Qc * Qc) * option ContainerEND.t :=
  match obj with
  | None => (Raise AttributeError, None)
  | Some c =>
      let c := ContainerEND.calculate_amount c amount in
      let c := ContainerEND.calculate_cost_cumulative c amount in
      match ContainerEND.calculate_positive_reward_cumulative c output
              output_baseline multiplier with
      | (Raise e, c) => (Raise e, Some c)
      | (Ok _, c) =>
          (let reward := (0 - amount * Rew.costs_nitrogen self)%Qc in
           growth ← compute_growth_storage_organ (Some output)
                      (Rew.timestep self) multiplier;
           Ok (reward, growth),
           Some c)
      end
  end.

End DNE.

End Rewards.

Module ActionsContainer.

Record t := Build { actions : Qc }.

Definition init : t := Build 0.

Definition calculate_amount (self : t) (action : Qc) : t :=
  Build (actions self + action).

Definition reset (self : t) : t := Build 0.

#[global] Instance actions_counter : ActionsCounter t := {|
  rewards.calculate_amount := calculate_amount;
  rewards.get_total_fertilization := actions
|}.

End ActionsContainer.

(** *** Module-level functions *)

Definition calculate_nue (n_input n_so : Qc) (year : option Z)
    (start end_ : option datetime.date) (n_seed : Qc)
    (no3_depo nh4_depo : option Qc) : result Qc :=
  n_in ← input_nue n_input year start end_ n_seed no3_depo nh4_depo;
  nue ← truediv n_so n_in;
  Ok nue.

Definition wheat_prices : gmap Z Qc :=
  list_to_map [
    (1989, num 177.16); (1990, num 168.27); (1991, num 174.05);
    (1992, num 171.61); (1993, num 148.94); (1994, num 135.27);
    (1995, num 131.89); (1996, num 130.50); (1997, num 120.84);
    (1998, num 111.39); (1999, num 111.62); (2000, num 116.23);
    (2001, num 112.17); (2002, num 102.89); (2003, num 114.73);
    (2004, num 116.95); (2005, num 96.73); (2006, num 117.95);
    (2007, num 180.78); (2008, num 169.84); (2009, num 112.23);
    (2010, num 152.00); (2011, num 197.5); (2012, num 219.28);
    (2013, num 203.23); (2014, num 164.12); (2015, num 159.43);
    (2016, num 145.17); (2017, num 154.62); (2018, num 176.23);
    (2019, num 172.23); (2020, num 181.67); (2021, num 233.84);
    (2022, num 312.56); (2023, num 227.56)
  ].

Definition annual_price_wheat_per_ton (year : Z) : result Qc :=
  getitem wheat_prices year.

Definition price_per_ton_default : Qc := num 157.75.

Definition get_wheat_price_in_kgs (year : Z) (with_year : bool)
    (price_per_ton : Qc) : result Qc :=
  if negb with_year then Ok (price_per_ton * num 0.001)%Qc
  else
    price ← annual_price_wheat_per_ton year;
    Ok (price * num 0.001)%Qc.

Definition nitrogen_prices : gmap Z Qc :=
  list_to_map [
    (1989, num 11.61); (1990, num 11.61); (1991, num 12.20);
    (1992, num 11.04); (1993, num 10.07); (1994, num 10.24);
    (1995, num 12.58); (1996, num 13.22); (1997, num 11.49);
    (1998, num 10.55); (1999, num 9.48); (2000, num 13.09);
    (2001, num 15.60); (2002, num 14.28); (2003, num 15.18);
    (2004, num 15.89); (2005, num 17.11); (2006, num 18.85);
    (2007, num 19.81); (2008, num 33.12); (2009, num 21.37);
    (2010, num 21.71); (2011, num 29.39); (2012, num 29.38);
    (2013, num 27.13); (2014, num 27.74); (2015, num 27.85);
    (2016, num 21.49); (2017, num 21.37); (2018, num 22.90);
    (2019, num 24.17); (2020, num 20.49); (2021, num 35.71);
    (2022, num 76.62); (2023, num 38.14)
  ].

Definition annual_price_nitrogen_per_quintal (year : Z) : result Qc :=
  getitem nitrogen_prices year.

Definition price_per_quintal_default : Qc := num 20.928.

Definition get_nitrogen_price_in_kgs (year : Z) (with_year : bool)
    (price_per_quintal : Qc) : result Qc :=
  if negb with_year then Ok (price_per_quintal * num 0.01)%Qc
  else
    price ← annual_price_nitrogen_per_quintal year;
    Ok (price * num 0.01)%Qc.

Definition get_fertilizer_price (action : Qc) (year : Z) (with_year : bool)
    : result Qc :=
  let amount := (action * num 10)%Qc in
  price ← get_nitrogen_price_in_kgs year with_year price_per_quintal_default;
  Ok (amount * price)%Qc.

Definition calculate_net_profit `{process_pcse} (output : Output)
    (amount : Qc) (year : Z) (multiplier : Qc) (timestep : Z)
    (with_year : bool) : result (Qc * Qc) :=
  growth ← compute_growth_storage_organ (Some output) timestep multiplier;
  wheat_price ← get_wheat_price_in_kgs year with_year price_per_ton_default;
  let wso_conv_eur := (growth * wheat_price)%Qc in
  n_conv_eur ← get_fertilizer_price amount year with_year;
  let reward := (wso_conv_eur - n_conv_eur)%Qc in
  Ok (reward, growth).




(** *** Methods that call the module-level functions

    The methods of [Rewards] itself and those of [ContainerNUE] that call
    [calculate_nue], [get_surplus_n] and [calculate_net_profit]. *)

Module Rewards_methods.

Import Rewards.

(** The fields of a [Rewards] object. *)
Record t := Build {
  reward_var : string;
  timestep : Z;
  costs_nitrogen : Qc;
  vrr : Qc;
  profit : Qc;
  with_year : bool
}.

Definition costs_nitrogen_default : Qc := num 10.0.

(** [__init__]. *)
Definition init (reward_var : string) (timestep : Z) (costs_nitrogen vrr : Qc)
    (with_year : bool) : t :=
  Build reward_var timestep costs_nitrogen vrr 0 with_year.

Definition growth_storage_organ `{process_pcse} (self : t) (output : Output)
    (amount multiplier : Qc) : result (Qc * Qc) :=
  growth ← compute_growth_storage_organ (Some output) (timestep self)
             multiplier;
  let costs := (costs_nitrogen self * amount)%Qc in
  let reward := (growth - costs)%Qc in
  Ok (reward, growth).

Definition default_winterwheat_reward `{process_pcse} (self : t)
    (output : Output) (output_baseline : option Output)
    (amount multiplier : Qc) : result (Qc * Qc) :=
  growth ← compute_growth_storage_organ (Some output) (timestep self)
             multiplier;
  growth_baseline ← compute_growth_storage_organ output_baseline
                      (timestep self) multiplier;
  let benefits := (growth - growth_baseline)%Qc in
  let costs := (costs_nitrogen self * amount)%Qc in
  let reward := (benefits - costs)%Qc in
  Ok (reward, growth).

Definition ane_reward `{process_pcse} (self : t) (ane_obj : ContainerANE.t)
    (output : Output) (output_baseline : option Output) (amount : Qc)
    : result (Qc * Qc) * ContainerANE.t :=
  ContainerANE.reward ane_obj output output_baseline amount.

(** Returns the outcome and the container after the call. *)
Definition end_reward `{process_pcse} (self : t) (end_obj : ContainerEND.t)
    (output : Output) (output_baseline : option Output)
    (amount multiplier : Qc) : result (Qc * Qc) * ContainerEND.t :=
  let end_obj := ContainerEND.calculate_cost_cumulative end_obj amount in
  match ContainerEND.calculate_positive_reward_cumulative end_obj output
          output_baseline 1%Qc with
  | (Raise e, end_obj) => (Raise e, end_obj)
  | (Ok _, end_obj) =>
      (let reward := (0 - amount * costs_nitrogen self)%Qc in
       growth ← compute_growth_storage_organ (Some output) (timestep self)
                  multiplier;
       Ok (reward, growth),
       end_obj)
  end.

Definition nue_reward `{process_pcse} (self : t) (nue_obj : ContainerEND.t)
    (output : Output) (output_baseline : option Output)
    (amount multiplier : Qc) : result (Qc * Qc) * ContainerEND.t :=
  let nue_obj := ContainerEND.calculate_cost_cumulative nue_obj amount in
  match ContainerEND.calculate_positive_reward_cumulative nue_obj output
          output_baseline multiplier with
  | (Raise e, nue_obj) => (Raise e, nue_obj)
  | (Ok _, nue_obj) =>
      (let reward := (0 - amount * costs_nitrogen self)%Qc in
       growth ← compute_growth_storage_organ (Some output) (timestep self)
                  multiplier;
       Ok (reward, growth),
       nue_obj)
  end.

Definition calc_misc_cost (self : t) (end_obj : ContainerEND.t) (cost : Qc)
    : ContainerEND.t :=
  ContainerEND.calculate_misc_cumulative_cost end_obj cost.

Definition reset (self : t) : t :=
  Build (reward_var self) (timestep self) (costs_nitrogen self) (vrr self) 0
    (with_year self).



Definition calculate_nue_on_terminate (self : t) (n_input n_so : Qc)
    (year : option Z) (start end_ : option datetime.date)
    (no3_depo nh4_depo : option Qc) : result Qc :=
  calculate_nue n_input n_so year start end_ n_seed_default no3_depo nh4_depo.

End Rewards_methods.

Module ContainerNUE_methods.

Import Rewards.

(** [self] is the [ContainerEND] part of the container, which holds all its
    fields. *)
Definition calculate_reward_nue (self : ContainerEND.t)
    (n_fertilized n_output : Qc) (year : option Z)
    (start end_ : option datetime.date) (no3_depo nh4_depo : option Qc)
    : result Qc :=
  '(nue, n_surplus) ←
    (if bool_decide (year = None) || bool_decide (start = None)
        || bool_decide (end_ = None)
     then
       nue ← calculate_nue n_fertilized n_output None None None
               n_seed_default no3_depo nh4_depo;
       n_surplus ← get_surplus_n n_fertilized n_output None None None
                     n_seed_default no3_depo nh4_depo;
       Ok (nue, n_surplus)
     else
       nue ← calculate_nue n_fertilized n_output year start end_
               n_seed_default None None;
       n_surplus ← get_surplus_n n_fertilized n_output year start end_
                     n_seed_default None None;
       Ok (nue, n_surplus));
  let end_yield := ContainerEND.dump_cumulative_positive_reward self in
  ContainerNUE.formula_nue n_surplus nue end_yield false.

End ContainerNUE_methods.

End rewards.

(** ** Sequences of calls on a container *)

Module calls.

Import nitrogen_helpers rewards.Rewards.

(** The four bookkeeping methods of [ContainerEND] that an episode may call,
    with their arguments. *)
Inductive call :=
| Calculate_amount (action : Qc)
| Calculate_misc_cumulative_cost (cost : Qc)
| Calculate_positive_reward_cumulative (output : Output)
    (output_baseline : option Output) (multiplier : Qc)
| Calculate_cost_cumulative (amount : Qc).

(** The container after one call (whether or not the call raised). *)
Definition exec `{process_pcse} (c : call) (self : ContainerEND.t)
    : ContainerEND.t :=
  match c with
  | Calculate_amount action => ContainerEND.calculate_amount self action
  | Calculate_misc_cumulative_cost cost =>
      ContainerEND.calculate_misc_cumulative_cost self cost
  | Calculate_positive_reward_cumulative output output_baseline multiplier =>
      snd (ContainerEND.calculate_positive_reward_cumulative self output
             output_baseline multiplier)
  | Calculate_cost_cumulative amount =>
      ContainerEND.calculate_cost_cumulative self amount
  end.

(** The container after a sequence of calls, first call first. *)
Definition run `{process_pcse} (cs : list call) (self : ContainerEND.t)
    : ContainerEND.t :=
  fold_left (fun s c => exec c s) cs self.

(** A container that has just been constructed or reset. *)
Definition fresh (self : ContainerEND.t) : Prop :=
  (exists timestep costs_nitrogen,
      self = ContainerEND.init timestep costs_nitrogen)
  \/ (exists previous, self = ContainerEND.reset previous).

(** The cost recorded so far is the price of the amount recorded so far. *)
Definition cost_matches_amount (self : ContainerEND.t) : Prop :=
  ContainerEND.cum_cost self
  = (ContainerEND.costs_nitrogen self * ContainerEND.cum_amount self)%Qc.

End calls.

(** ** Episodes of a reward function *)

Module episodes.

Import nitrogen_helpers rewards.Rewards.

(** The arguments of one call of [return_reward]. *)
Record step := Step {
  output : Output;
  amount : Qc;
  output_baseline : option Output;
  multiplier : Qc
}.

(** The calls of one episode in turn on one container, the rewards added up;
    the episode ends at the first call that raises. *)
Fixpoint run (return_reward :
      Rew.t -> Output -> Qc -> option Output -> Qc -> option ContainerEND.t ->
      result (Qc * Qc) * option ContainerEND.t)
    (self : Rew.t) (steps : list step) (obj : ContainerEND.t) (total : Qc)
    : result Qc * ContainerEND.t :=
  match steps with
  | [] => (Ok total, obj)
  | st :: rest =>
      match return_reward self (output st) (amount st) (output_baseline st)
              (multiplier st) (Some obj) with
      | (Ok (reward, _), Some obj) =>
          run return_reward self rest obj (total + reward)%Qc
      | (Ok _, None) => (Raise AttributeError, obj)
      | (Raise e, Some obj) => (Raise e, obj)
      | (Raise e, None) => (Raise e, obj)
      end
  end.


(** What a reward call with an amount leaves in the books of a container:
    the amount in [actions] and [cum_amount], its price in [cum_cost]. *)
Definition booked (amount : Qc) (before after : ContainerEND.t) : Prop :=
  ContainerEND.costs_nitrogen after = ContainerEND.costs_nitrogen before
  /\ ContainerEND.actions after = (ContainerEND.actions before + amount)%Qc
  /\ ContainerEND.cum_amount after
     = (ContainerEND.cum_amount before + amount)%Qc
  /\ ContainerEND.cum_cost after
     = (ContainerEND.cum_cost before
        + amount * ContainerEND.costs_nitrogen before)%Qc
  /\ ContainerEND.cum_misc_cost after = ContainerEND.cum_misc_cost before.

End episodes.

(** ** Sample data for concrete instances *)

Module samples.

Import nitrogen_helpers.

(** A stand-in for the growth computation, used only to run the reward code
    on concrete data: it reads the weight of the storage organs off the last
    record and scales it, and raises on a missing or empty output. *)
Definition last_twso : process_pcse := {|
  compute_growth_storage_organ output timestep multiplier :=
    match output with
    | None => Raise TypeError
    | Some records =>
        record ← getitem_last records;
        twso ← getitem record "TWSO"%string;
        Ok (twso * multiplier)%Qc
    end
|}.

Definition harvest : Output :=
  [ {[ "TWSO"%string := num 0 ]};
    {[ "TWSO"%string := num 812.5;
       "RNO3DEPOSTT"%string := num 0.00095;
       "RNH4DEPOSTT"%string := num 0.00166 ]} ].

Definition harvest_baseline : Output :=
  [ {[ "TWSO"%string := num 0 ]}; {[ "TWSO"%string := num 540 ]} ].

End samples.

(** * Properties *)

Import nitrogen_helpers rewards.

(** ** Arithmetic of the number model *)

Lemma of_int_eq_0 z : of_int z = 0%Qc -> z = 0.
Proof.
  unfold of_int. intros H.
  change 0%Qc with (Q2Qc 0) in H.
  apply Q2Qc_eq_iff in H.
  unfold Qeq in H. simpl in H. lia.
Qed.

Lemma of_int_neq_0 z : z <> 0 -> of_int z <> 0%Qc.
Proof. intros Hz H. apply Hz, of_int_eq_0, H. Qed.

Lemma truediv_ok a b : b <> 0%Qc -> truediv a b = Ok (a / b)%Qc.
Proof.
  intros Hb. unfold truediv.
  destruct (decide (b = 0%Qc)); [contradiction | reflexivity].
Qed.

Lemma truediv_zero a : truediv a 0%Qc = Raise ZeroDivisionError.
Proof.
  unfold truediv. destruct (decide (0%Qc = 0%Qc)); [reflexivity | congruence].
Qed.

(** Two closed fractions are equal when their reduced forms are. *)
Ltac qc_closed := apply Qc_is_canon; vm_compute; reflexivity.

(** Two closed fractions differ when their reduced forms do. *)
Ltac qc_differ :=
  let H := fresh "H" in
  intros H; apply (f_equal this) in H; vm_compute in H; discriminate H.

Lemma m2_to_ha_neq_0 : m2_to_ha <> 0%Qc.
Proof. qc_differ. Qed.

(** ** Dates *)

Lemma days_in_year_neq_0 y : 365 + (if isleap y then 1 else 0) <> 0.
Proof. destruct (isleap y); lia. Qed.

Lemma valid_bounds d :
  datetime.valid d ->
  1 <= datetime.year d <= 9999
  /\ 1 <= datetime.month d <= 12
  /\ 1 <= datetime.day d <= 31.
Proof.
  unfold datetime.valid, datetime._check_date_fields,
    datetime.MINYEAR, datetime.MAXYEAR.
  rewrite !andb_true_iff, !Z.leb_le.
  intros [[[[[Hy1 Hy2] Hm1] Hm2] Hd1] Hd2].
  repeat split; try assumption.
  revert Hd2. unfold datetime._days_in_month.
  destruct (isleap (datetime.year d));
    assert (Hm : datetime.month d = 1 \/ datetime.month d = 2
                 \/ datetime.month d = 3 \/ datetime.month d = 4
                 \/ datetime.month d = 5 \/ datetime.month d = 6
                 \/ datetime.month d = 7 \/ datetime.month d = 8
                 \/ datetime.month d = 9 \/ datetime.month d = 10
                 \/ datetime.month d = 11 \/ datetime.month d = 12) by lia;
    repeat (destruct Hm as [Hm | Hm]; [rewrite Hm; simpl; lia |]);
    rewrite Hm; simpl; lia.
Qed.

Lemma new_dec31 y :
  1 <= y <= 9999 -> datetime.new y 12 31 = Ok (datetime.Date y 12 31).
Proof.
  intros Hy. unfold datetime.new, datetime._check_date_fields,
    datetime.MINYEAR, datetime.MAXYEAR, datetime._days_in_month.
  replace (1 <=? y) with true by (symmetry; apply Z.leb_le; lia).
  replace (y <=? 9999) with true by (symmetry; apply Z.leb_le; lia).
  reflexivity.
Qed.

Lemma new_jan1 y :
  1 <= y <= 9999 -> datetime.new y 1 1 = Ok (datetime.Date y 1 1).
Proof.
  intros Hy. unfold datetime.new, datetime._check_date_fields,
    datetime.MINYEAR, datetime.MAXYEAR, datetime._days_in_month.
  replace (1 <=? y) with true by (symmetry; apply Z.leb_le; lia).
  replace (y <=? 9999) with true by (symmetry; apply Z.leb_le; lia).
  reflexivity.
Qed.

(** A valid date is before 31 December of its year unless it is that day. *)
Lemma lt_dec31 d :
  datetime.valid d ->
  datetime.lt d (datetime.Date (datetime.year d) 12 31)
  = negb (bool_decide (d = datetime.Date (datetime.year d) 12 31)).
Proof.
  intros Hv. apply valid_bounds in Hv as (_ & Hm & Hd).
  destruct d as [y m dd]. cbn [datetime.year datetime.month datetime.day] in *.
  unfold datetime.lt. cbn [datetime.year datetime.month datetime.day].
  rewrite Z.ltb_irrefl, Z.eqb_refl. cbn [orb andb].
  case_bool_decide as Heq.
  - injection Heq as -> ->. reflexivity.
  - cbn [negb]. apply orb_true_iff.
    destruct (Z.eq_dec m 12) as [-> | Hne].
    + right. rewrite Z.eqb_refl. cbn [andb]. apply Z.ltb_lt.
      assert (dd <> 31) by congruence. lia.
    + left. apply Z.ltb_lt. lia.
Qed.

(** 1 January is before every other valid date of its year. *)
Lemma lt_jan1 d :
  datetime.valid d ->
  datetime.lt (datetime.Date (datetime.year d) 1 1) d
  = negb (bool_decide (d = datetime.Date (datetime.year d) 1 1)).
Proof.
  intros Hv. apply valid_bounds in Hv as (_ & Hm & Hd).
  destruct d as [y m dd]. cbn [datetime.year datetime.month datetime.day] in *.
  unfold datetime.lt. cbn [datetime.year datetime.month datetime.day].
  rewrite Z.ltb_irrefl, Z.eqb_refl. cbn [orb andb].
  case_bool_decide as Heq.
  - injection Heq as -> ->. reflexivity.
  - cbn [negb]. apply orb_true_iff.
    destruct (Z.eq_dec m 1) as [-> | Hne].
    + right. rewrite Z.eqb_refl. cbn [andb]. apply Z.ltb_lt.
      assert (dd <> 1) by congruence. lia.
    + left. apply Z.ltb_lt. lia.
Qed.

(** ** Disaggregation of the annual deposition *)

Lemma disaggregated_rec_unfold depth year s e :
  get_disaggregated_deposition_rec (S depth) year s e =
    if negb (datetime.lt s e) then Raise AssertionError
    else if negb (datetime.year s =? datetime.year e) then
      dec31 ← datetime.new (datetime.year s) 12 31;
      '(nh4_s, no3_s) ← get_disaggregated_deposition_rec depth
          (Some (datetime.year s)) s dec31;
      jan1 ← datetime.new (datetime.year e) 1 1;
      '(nh4_e, no3_e) ← get_disaggregated_deposition_rec depth
          (Some (datetime.year e)) jan1 e;
      Ok ((nh4_s + nh4_e)%Qc, (no3_s + no3_e)%Qc)
    else
      let date_range := datetime.sub_days e s in
      let '(nh4_full, no3_full) := get_deposition_amount year in
      days_nh4 ← get_days_in_year year;
      daily_nh4 ← truediv nh4_full (of_int days_nh4);
      days_no3 ← get_days_in_year year;
      daily_no3 ← truediv no3_full (of_int days_no3);
      Ok ((daily_nh4 * of_int date_range)%Qc,
          (daily_no3 * of_int date_range)%Qc).
Proof. reflexivity. Qed.

(** Within one year one level of calls is enough, and the result is the
    annual amount times the fraction of the year. *)
Lemma disaggregated_same_year depth y s e :
  datetime.lt s e = true ->
  datetime.year s = datetime.year e ->
  get_disaggregated_deposition_rec (S depth) (Some y) s e =
    let n := of_int (365 + (if isleap y then 1 else 0)) in
    let r := of_int (datetime.sub_days e s) in
    Ok ((fst (get_deposition_amount (Some y)) * (r / n))%Qc,
        (snd (get_deposition_amount (Some y)) * (r / n))%Qc).
Proof.
  intros Hlt Hy. rewrite disaggregated_rec_unfold.
  rewrite Hlt, Hy, Z.eqb_refl. cbn [negb].
  destruct (get_deposition_amount (Some y)) as [nh4 no3].
  cbn [get_days_in_year mbind result_bind fst snd].
  assert (Hq : of_int (365 + (if isleap y then 1 else 0)) <> 0%Qc)
    by apply of_int_neq_0, days_in_year_neq_0.
  rewrite !truediv_ok by exact Hq.
  cbn [mbind result_bind].
  f_equal. f_equal; field; exact Hq.
Qed.

(** An empty or reversed interval fails the assertion at any depth. *)
Lemma disaggregated_assertion depth year s e :
  datetime.lt s e = false ->
  get_disaggregated_deposition_rec (S depth) year s e = Raise AssertionError.
Proof. intros Hlt. rewrite disaggregated_rec_unfold, Hlt. reflexivity. Qed.

(** Across two years the call nests once: it never reaches the recursion
    limit, and it is the sum of two calls within one year each. *)
Lemma disaggregated_other_year depth year s e :
  datetime.valid s -> datetime.valid e ->
  datetime.lt s e = true ->
  datetime.year s <> datetime.year e ->
  get_disaggregated_deposition_rec (S (S depth)) year s e =
    '(nh4_s, no3_s) ← get_disaggregated_deposition_rec (S depth)
        (Some (datetime.year s)) s (datetime.Date (datetime.year s) 12 31);
    '(nh4_e, no3_e) ← get_disaggregated_deposition_rec (S depth)
        (Some (datetime.year e)) (datetime.Date (datetime.year e) 1 1) e;
    Ok ((nh4_s + nh4_e)%Qc, (no3_s + no3_e)%Qc).
Proof.
  intros Hs He Hlt Hy. rewrite disaggregated_rec_unfold, Hlt. cbn [negb].
  apply Z.eqb_neq in Hy. rewrite Hy. cbn [negb].
  apply valid_bounds in Hs as (Hys & _). apply valid_bounds in He as (Hye & _).
  rewrite (new_dec31 _ Hys), (new_jan1 _ Hye). reflexivity.
Qed.

(** The depth does not matter for a call within one year. *)
Lemma disaggregated_depth depth depth' year s e :
  datetime.year s = datetime.year e ->
  get_disaggregated_deposition_rec (S depth) year s e
  = get_disaggregated_deposition_rec (S depth') year s e.
Proof.
  intros Hy. rewrite !disaggregated_rec_unfold, Hy, Z.eqb_refl.
  destruct (datetime.lt s e); reflexivity.
Qed.

Lemma recursion_limit_eq : recursion_limit = S (S 998).
Proof. reflexivity. Qed.

(** The test [test_disaggregate] of the repository: January 2002 is 31 daily
    shares of the annual amount. *)
Example test_disaggregate :
  get_disaggregated_deposition (Some 2002)
    (datetime.Date 2002 1 1) (datetime.Date 2002 2 1)
  = Ok ((fst (get_deposition_amount (Some 2002)) / of_int 365 * of_int 31)%Qc,
        (snd (get_deposition_amount (Some 2002)) / of_int 365 * of_int 31)%Qc).
Proof. vm_compute. repeat f_equal; qc_closed. Qed.

(** All cases of a call on valid dates [s < e]: within one year, across two
    years away from the year boundary, and across two years when [s] is
    31 December or [e] is 1 January, where a nested call fails its
    assertion. *)
Lemma disaggregated_deposition_cases
    (year : option Z) (s e : datetime.date) :
  datetime.valid s -> datetime.valid e ->
  datetime.lt s e = true ->
  (forall y,
      datetime.year s = y -> datetime.year e = y -> year = Some y ->
      get_disaggregated_deposition year s e =
        Ok ((fst (get_deposition_amount (Some y))
             * (of_int (datetime.sub_days e s)
                / of_int (365 + (if isleap y then 1 else 0))))%Qc,
            (snd (get_deposition_amount (Some y))
             * (of_int (datetime.sub_days e s)
                / of_int (365 + (if isleap y then 1 else 0))))%Qc))
  /\ (datetime.year s <> datetime.year e ->
      let dec31 := datetime.Date (datetime.year s) 12 31 in
      let jan1 := datetime.Date (datetime.year e) 1 1 in
      (s <> dec31 -> e <> jan1 ->
       exists nh4_s no3_s nh4_e no3_e,
         get_disaggregated_deposition (Some (datetime.year s)) s dec31
         = Ok (nh4_s, no3_s)
         /\ get_disaggregated_deposition (Some (datetime.year e)) jan1 e
            = Ok (nh4_e, no3_e)
         /\ get_disaggregated_deposition year s e
            = Ok ((nh4_s + nh4_e)%Qc, (no3_s + no3_e)%Qc))
      /\ (s = dec31 \/ e = jan1 ->
          get_disaggregated_deposition year s e = Raise AssertionError)).
Proof.
  intros Hs He Hlt. unfold get_disaggregated_deposition.
  rewrite recursion_limit_eq. split.
  - intros y Hys Hye ->. apply disaggregated_same_year; congruence.
  - intros Hy. cbn zeta.
    set (dec31 := datetime.Date (datetime.year s) 12 31).
    set (jan1 := datetime.Date (datetime.year e) 1 1).
    rewrite (disaggregated_other_year _ _ _ _ Hs He Hlt Hy).
    fold dec31 jan1.
    pose proof (lt_dec31 s Hs) as Hd. fold dec31 in Hd.
    pose proof (lt_jan1 e He) as Hj. fold jan1 in Hj.
    split.
    + intros Hsd Hej.
      rewrite bool_decide_eq_false_2 in Hd by exact Hsd.
      rewrite bool_decide_eq_false_2 in Hj by exact Hej.
      cbn [negb] in Hd, Hj.
      rewrite (disaggregated_depth 999 998) by reflexivity.
      rewrite (disaggregated_depth 999 998 _ jan1) by reflexivity.
      rewrite (disaggregated_same_year _ _ _ _ Hd eq_refl).
      rewrite (disaggregated_same_year _ _ _ _ Hj eq_refl).
      cbn zeta. do 4 eexists. split; [reflexivity |].
      split; reflexivity.
    + intros [Heq | Heq].
      * rewrite bool_decide_eq_true_2 in Hd by exact Heq. cbn [negb] in Hd.
        rewrite (disaggregated_assertion _ _ _ _ Hd). reflexivity.
      * rewrite bool_decide_eq_true_2 in Hj by exact Heq. cbn [negb] in Hj.
        rewrite (disaggregated_assertion 998 _ jan1 e Hj).
        destruct (bool_decide (s = dec31)); cbn [negb] in Hd.
        -- rewrite (disaggregated_assertion _ _ _ _ Hd). reflexivity.
        -- rewrite (disaggregated_same_year _ _ _ _ Hd eq_refl). reflexivity.
Qed.


(** X25. At the year boundary the call does not return: the nested call on
    [31 December, 31 December] or on [1 January, 1 January] fails
    [assert start_date < end_date]. *)
Lemma disaggregated_year_boundary_raises
    (year : option Z) (s e : datetime.date) :
  datetime.valid s -> datetime.valid e ->
  datetime.lt s e = true ->
  datetime.year s <> datetime.year e ->
  s = datetime.Date (datetime.year s) 12 31
  \/ e = datetime.Date (datetime.year e) 1 1 ->
  get_disaggregated_deposition year s e = Raise AssertionError.
Proof.
  intros Hs He Hlt Hy.
  exact (proj2 (proj2 (disaggregated_deposition_cases year s e Hs He Hlt) Hy)).
Qed.








(** ** Annual deposition *)

(** C9. [get_deposition_amount(year)] is the constant pair (NH4, NO3) = (9, 3)
    exactly when [year] is [None] or [year > 2030]; for every other year,
    also at or before 1900, it is the pair of linear formulas
    (697 - 0.339 * year, 538.868 - 0.264 * year). *)
Theorem deposition_amount_fallback (year : option Z) :
  (get_deposition_amount year = (num 9, num 3)
   <-> year = None \/ exists y, year = Some y /\ 2030 < y)
  /\ (forall y, year = Some y -> y <= 2030 ->
      get_deposition_amount year
      = ((num 697 - num 0.339 * of_int y)%Qc,
         (num 538.868 - num 0.264 * of_int y)%Qc)).
Proof.
  assert (Hlin : forall y, y <= 2030 ->
            get_deposition_amount (Some y)
            = ((num 697 - num 0.339 * of_int y)%Qc,
               (num 538.868 - num 0.264 * of_int y)%Qc)).
  { intros y Hy. unfold get_deposition_amount.
    replace (2030 <? y) with false by (symmetry; apply Z.ltb_ge; lia).
    rewrite andb_false_r. reflexivity. }
  split.
  - split.
    + intros H. destruct year as [y |]; [| left; reflexivity].
      right. exists y. split; [reflexivity |].
      destruct (Z_lt_le_dec 2030 y) as [Hgt | Hle]; [exact Hgt | exfalso].
      rewrite (Hlin y Hle) in H.
      pose proof (f_equal fst H) as H1. pose proof (f_equal snd H) as H2.
      cbn [fst snd] in H1, H2.
      assert (E : (num 0.264 * (num 697 - (num 697 - num 0.339 * of_int y))
                   = num 0.339
                     * (num 538.868 - (num 538.868 - num 0.264 * of_int y)))%Qc)
        by ring.
      rewrite H1, H2 in E. revert E. qc_differ.
    + intros [-> | (y & -> & Hy)]; [reflexivity |].
      unfold get_deposition_amount.
      replace (1900 <? y) with true by (symmetry; apply Z.ltb_lt; lia).
      replace (2030 <? y) with true by (symmetry; apply Z.ltb_lt; lia).
      reflexivity.
  - intros y -> Hy. apply Hlin, Hy.
Qed.

Lemma deposition_amount_fallback_witness :
  get_deposition_amount (Some 1850)
  = ((num 697 - num 0.339 * of_int 1850)%Qc,
     (num 538.868 - num 0.264 * of_int 1850)%Qc)
  /\ get_deposition_amount (Some 2031) = (num 9, num 3).
Proof.
  split.
  - apply (proj2 (deposition_amount_fallback (Some 1850)) 1850 eq_refl). lia.
  - apply (proj1 (deposition_amount_fallback (Some 2031))).
    right. exists 2031. split; [reflexivity | lia].
Defined.

(** ** Deposition read from the simulator output *)

(** C10. When the last record of the output has the keys [RNO3DEPOSTT] and
    [RNH4DEPOSTT], each getter returns its raw field divided once by
    [m2_to_ha = 1e-4], and [get_n_deposition_pcse] returns the sum of the two
    getters divided by [m2_to_ha] once more. *)
Theorem n_deposition_pcse_total
    (output : Output) (record : gmap string Qc) (rno3 rnh4 : Qc) :
  last output = Some record ->
  record !! "RNO3DEPOSTT"%string = Some rno3 ->
  record !! "RNH4DEPOSTT"%string = Some rnh4 ->
  m2_to_ha = num 0.0001
  /\ get_no3_deposition_pcse output = Ok (rno3 / m2_to_ha)%Qc
  /\ get_nh4_deposition_pcse output = Ok (rnh4 / m2_to_ha)%Qc
  /\ get_n_deposition_pcse output
     = Ok ((rno3 / m2_to_ha + rnh4 / m2_to_ha) / m2_to_ha)%Qc.
Proof.
  intros Hlast Hno3 Hnh4.
  assert (Gno3 : get_no3_deposition_pcse output = Ok (rno3 / m2_to_ha)%Qc).
  { unfold get_no3_deposition_pcse, getitem_last, getitem.
    rewrite Hlast. cbn [mbind result_bind]. rewrite Hno3.
    apply truediv_ok, m2_to_ha_neq_0. }
  assert (Gnh4 : get_nh4_deposition_pcse output = Ok (rnh4 / m2_to_ha)%Qc).
  { unfold get_nh4_deposition_pcse, getitem_last, getitem.
    rewrite Hlast. cbn [mbind result_bind]. rewrite Hnh4.
    apply truediv_ok, m2_to_ha_neq_0. }
  repeat split; try assumption.
  unfold get_n_deposition_pcse. rewrite Gno3, Gnh4.
  apply truediv_ok, m2_to_ha_neq_0.
Qed.

Lemma n_deposition_pcse_total_witness :
  get_n_deposition_pcse samples.harvest
  = Ok ((num 0.00095 / m2_to_ha + num 0.00166 / m2_to_ha) / m2_to_ha)%Qc.
Proof.
  apply (n_deposition_pcse_total samples.harvest
           {[ "TWSO"%string := num 812.5;
              "RNO3DEPOSTT"%string := num 0.00095;
              "RNH4DEPOSTT"%string := num 0.00166 ]}
           (num 0.00095) (num 0.00166));
    reflexivity.
Defined.

(** ** Nitrogen input, surplus and use efficiency *)


(** The side condition of the second part: on a zero input the efficiency is
    a division by zero. *)
Lemma calculate_nue_zero_input
    (n_input n_so : Qc) (year : option Z) (start end_ : option datetime.date)
    (n_seed : Qc) (no3_depo nh4_depo : option Qc) :
  input_nue n_input year start end_ n_seed no3_depo nh4_depo = Ok 0%Qc ->
  calculate_nue n_input n_so year start end_ n_seed no3_depo nh4_depo
  = Raise ZeroDivisionError.
Proof.
  intros Hin. unfold calculate_nue. rewrite Hin. cbn [mbind result_bind].
  rewrite truediv_zero. reflexivity.
Qed.


(** ** Bookkeeping of the cumulative cost *)

Import Rewards calls.






(** ** Price tables *)

Lemma wheat_prices_dom :
  dom wheat_prices = list_to_set (C := gset Z) (seqZ 1989 35).
Proof. vm_compute. reflexivity. Qed.


Lemma in_tables year :
  year ∈ (list_to_set (seqZ 1989 35) : gset Z) <-> 1989 <= year <= 2023.
Proof. rewrite elem_of_list_to_set, elem_of_seqZ. lia. Qed.



(** ** Net profit *)


(** ** Relative and absolute yield reward *)


(** With the stand-in growth computation: a harvest record of 812.5 against
    a baseline of 540, two units of fertiliser at cost 10. *)
Example sample_relative_and_absolute_reward :
  fst (@DEF.return_reward samples.last_twso _ _ (DEF.init 7 (num 10))
         samples.harvest (num 2) (Some samples.harvest_baseline) 1%Qc
         (Some ActionsContainer.init))
  = Ok (num 252.5, num 812.5)
  /\ fst (@GRO.return_reward samples.last_twso _ _ (GRO.init 7 (num 10))
            samples.harvest (num 2) None 1%Qc
            (Some ActionsContainer.init))
     = Ok (num 792.5, num 812.5).
Proof.
  split; vm_compute; f_equal; f_equal; qc_closed.
Qed.

(** ** The piecewise coefficient of nitrogen use efficiency *)

Import ContainerNUE.

Section nue_condition_default_bounds.

Local Open Scope R_scope.











End nue_condition_default_bounds.


(** * Further properties of the code *)

(** ** Order and arithmetic of the number model *)

Lemma this_plus (x y : Qc) : (this (x + y)%Qc == this x + this y)%Q.
Proof. unfold Qcplus, Q2Qc. cbn [this]. apply Qred_correct. Qed.

Lemma this_mult (x y : Qc) : (this (x * y)%Qc == this x * this y)%Q.
Proof. unfold Qcmult, Q2Qc. cbn [this]. apply Qred_correct. Qed.

Lemma this_opp (x : Qc) : (this (- x)%Qc == - this x)%Q.
Proof. unfold Qcopp, Q2Qc. cbn [this]. apply Qred_correct. Qed.

Lemma this_minus (x y : Qc) : (this (x - y)%Qc == this x - this y)%Q.
Proof. unfold Qcminus. rewrite this_plus, this_opp. reflexivity. Qed.

Lemma this_Q2Qc (q : Q) : (this (Q2Qc q) == q)%Q.
Proof. cbn [this Q2Qc]. apply Qred_correct. Qed.

Lemma this_inv (x : Qc) : (this (/ x)%Qc == / this x)%Q.
Proof. unfold Qcinv, Q2Qc. cbn [this]. apply Qred_correct. Qed.

Lemma this_div (x y : Qc) : (this (x / y)%Qc == this x / this y)%Q.
Proof. unfold Qcdiv. rewrite this_mult, this_inv. reflexivity. Qed.

Lemma Qc_eq_this (x y : Qc) : x = y <-> (this x == this y)%Q.
Proof. split; [intros ->; reflexivity | apply Qc_is_canon]. Qed.

(** Linear arithmetic on [Qc]: every fact is moved to [Q], where the
    operations of [Qc] are the operations of [Q] up to [==]. *)
Ltac qc_push :=
  repeat progress
    rewrite ?this_div, ?this_minus, ?this_plus, ?this_mult, ?this_opp,
      ?this_inv, ?this_Q2Qc.

Ltac qc_push_in H :=
  rewrite ?this_div, ?this_minus, ?this_plus, ?this_mult, ?this_opp,
    ?this_inv, ?this_Q2Qc in H.

Ltac qc_to_q :=
  unfold num, of_int in *;
  repeat match goal with
  | H : @eq Qc _ _ |- _ => apply Qc_eq_this in H
  | H : ~ @eq Qc _ _ |- _ => rewrite Qc_eq_this in H
  | H : Qcle _ _ |- _ => unfold Qcle in H
  | H : Qclt _ _ |- _ => unfold Qclt in H
  | H : ~ Qcle _ _ |- _ => unfold Qcle in H
  | H : ~ Qclt _ _ |- _ => unfold Qclt in H
  end;
  try apply Qc_eq_this; try rewrite Qc_eq_this; unfold Qcle, Qclt;
  repeat match goal with
  | H : context [this _] |- _ => progress qc_push_in H
  end;
  qc_push;
  repeat match goal with
  | |- context [inject_Z (Zpos ?p)] =>
      change (inject_Z (Zpos p)) with (Zpos p # 1)%Q
  | H : context [inject_Z (Zpos ?p)] |- _ =>
      change (inject_Z (Zpos p)) with (Zpos p # 1)%Q in H
  end;
  unfold Qdiv in *; cbn [Qinv Qnum Qden] in *.

Ltac qc_linear := qc_to_q; Lqa.lra.

Ltac qc_nonlinear := qc_to_q; Lqa.nra.

(** Case analysis on the comparisons that [max], [min], [abs] and the
    branches of the code make. *)
Ltac qc_cases :=
  repeat match goal with
  | |- context [bool_decide ?P] =>
      destruct (bool_decide_reflect P); cbn [andb orb negb]
  | H : context [bool_decide ?P] |- _ =>
      destruct (bool_decide_reflect P); cbn [andb orb negb] in H
  end.

(** ** Mapping a training year to a weather year *)

Lemma map_random_to_real_year_table :
  forallb
    (fun y =>
       bool_decide
         (map_random_to_real_year y test_year_start_default
            test_year_end_default train_year_start_default
            train_year_end_default
          = Ok (1990 + 32 * (y - 4000) / 1999)))
    (seqZ 3999 2001)
  = true.
Proof. vm_compute. reflexivity. Qed.

(** X1. With the default years, [map_random_to_real_year] sends a training
    year [y] of 3999..5999 to [1990 + floor(32 * (y - 4000) / 1999)], a year
    of 1989..2022 (3999 goes to 1989, 4000 to 1990, 5999 to 2022), and
    returns every other year unchanged. *)
Theorem map_random_to_real_year_defaults (y_rand : Z) :
  (3999 <= y_rand <= 5999 ->
   map_random_to_real_year y_rand test_year_start_default
     test_year_end_default train_year_start_default train_year_end_default
   = Ok (1990 + 32 * (y_rand - 4000) / 1999)
   /\ 1989 <= 1990 + 32 * (y_rand - 4000) / 1999 <= 2022)
  /\ (~ 3999 <= y_rand <= 5999 ->
      map_random_to_real_year y_rand test_year_start_default
        test_year_end_default train_year_start_default train_year_end_default
      = Ok y_rand).
Proof.
  split.
  - intros Hy. split.
    2: { pose proof (Z.div_mod (32 * (y_rand - 4000)) 1999 ltac:(lia)).
         pose proof (Z.mod_pos_bound (32 * (y_rand - 4000)) 1999 ltac:(lia)).
         lia. }
    pose proof map_random_to_real_year_table as Htable.
    rewrite forallb_forall in Htable.
    specialize (Htable y_rand).
    eapply bool_decide_eq_true_1. apply Htable.
    apply list_elem_of_In, elem_of_seqZ. lia.
  - intros Hy. unfold map_random_to_real_year.
    assert (Hout : (train_year_start_default - 1 <=? y_rand)
                   && (y_rand <? train_year_end_default + 1) = false).
    { unfold train_year_start_default, train_year_end_default.
      apply andb_false_iff. rewrite Z.leb_gt, Z.ltb_ge. lia. }
    rewrite Hout. reflexivity.
Qed.

Lemma map_random_to_real_year_defaults_witness :
  map_random_to_real_year 4098 test_year_start_default
    test_year_end_default train_year_start_default train_year_end_default
  = Ok 1991
  /\ map_random_to_real_year 2000 test_year_start_default
       test_year_end_default train_year_start_default train_year_end_default
     = Ok 2000.
Proof.
  split.
  - apply (proj1 (proj1 (map_random_to_real_year_defaults 4098) ltac:(lia))).
  - apply (proj2 (map_random_to_real_year_defaults 2000)). lia.
Defined.

(** ** Deposition by rain *)







(** ** Standard fertilisation practices *)

(** Any day up to the 28th exists in every month of every year. *)
Lemma check_date_fields_28 (y m d : Z) :
  1 <= y <= 9999 -> 1 <= m <= 12 -> 1 <= d <= 28 ->
  datetime._check_date_fields y m d = true.
Proof.
  intros Hy Hm Hd.
  unfold datetime._check_date_fields, datetime.MINYEAR, datetime.MAXYEAR.
  rewrite !andb_true_iff, !Z.leb_le. repeat split; try lia.
  unfold datetime._days_in_month.
  assert (Hcases : m = 1 \/ m = 2 \/ m = 3 \/ m = 4 \/ m = 5 \/ m = 6
                   \/ m = 7 \/ m = 8 \/ m = 9 \/ m = 10 \/ m = 11 \/ m = 12)
    by lia.
  destruct (isleap y);
    repeat (destruct Hcases as [Hcases' | Hcases];
            [rewrite Hcases'; simpl; lia |]);
    rewrite Hcases; simpl; lia.
Qed.

Lemma new_28 (y m d : Z) :
  1 <= y <= 9999 -> 1 <= m <= 12 -> 1 <= d <= 28 ->
  datetime.new y m d = Ok (datetime.Date y m d).
Proof.
  intros Hy Hm Hd. unfold datetime.new.
  rewrite check_date_fields_28 by assumption. reflexivity.
Qed.

Lemma lt_same_year (y m d m' d' : Z) :
  datetime.lt (datetime.Date y m d) (datetime.Date y m' d')
  = (m <? m') || ((m =? m') && (d <? d')).
Proof.
  unfold datetime.lt. cbn [datetime.year datetime.month datetime.day].
  rewrite Z.ltb_irrefl, Z.eqb_refl. reflexivity.
Qed.

(** X3. For each of the twelve treatments and every year of the calendar,
    [get_standard_practices] returns as many amounts as dates; the dates are
    valid dates of that year in increasing order, the amounts are not
    negative and the first one is positive.  For any other treatment name it
    raises [AssertionError]. *)
Theorem standard_practices_paired (treatment : string) (year : Z) :
  (treatment ∈ treatments_list -> 1 <= year <= 9999 ->
   exists dates amounts,
     get_standard_practices treatment year = Ok (dates, amounts)
     /\ length dates = length amounts
     /\ Forall (fun d => datetime.valid d /\ datetime.year d = year) dates
     /\ datetime.increasing dates
     /\ Forall (fun a => 0 <= a) amounts
     /\ (exists first rest, amounts = first :: rest /\ 0 < first))
  /\ (treatment ∉ treatments_list ->
      get_standard_practices treatment year = Raise AssertionError).
Proof.
  split.
  - intros Hin Hy.
    assert (Hdates : forall m d, 1 <= m <= 12 -> 1 <= d <= 28 ->
              datetime.valid (datetime.Date year m d)
              /\ datetime.year (datetime.Date year m d) = year).
    { intros m d Hm Hd. split; [| reflexivity].
      apply check_date_fields_28; assumption. }
    unfold treatments_list in Hin.
    repeat (apply elem_of_cons in Hin;
            destruct Hin as [Heq | Hin]; [subst treatment |]);
      [.. | apply elem_of_nil in Hin; contradiction];
      unfold get_standard_practices, treatment_dates, treatment_amounts;
      (rewrite bool_decide_eq_true_2
         by (unfold treatments_list;
             repeat first [apply list_elem_of_here
                          | apply list_elem_of_further]));
      cbn [negb];
      repeat match goal with
      | |- context [contains ?a ?b] =>
          let v := eval vm_compute in (contains a b) in
          change (contains a b) with v
      end;
      cbn iota;
      rewrite !new_28 by lia;
      cbn [mbind result_bind];
      (eexists; eexists; split; [reflexivity |]);
      (split; [reflexivity |]);
      (split; [repeat constructor; apply Hdates; lia |]);
      (split;
       [clear Hdates;
        intros [| [| [| [| i]]]] d d' Hd Hd'; cbn in Hd, Hd';
        try discriminate;
        apply (f_equal (default d)) in Hd, Hd'; cbn in Hd, Hd';
        rewrite <- Hd, <- Hd', lt_same_year; reflexivity |]);
      (split; [repeat constructor; lia |]);
      (eexists; eexists; split; [reflexivity | lia]).
  - intros Hout. unfold get_standard_practices, treatment_dates.
    rewrite bool_decide_eq_false_2 by exact Hout. reflexivity.
Qed.

Lemma standard_practices_paired_witness :
  (exists dates amounts,
     get_standard_practices "N2-WA" 2002 = Ok (dates, amounts)
     /\ length dates = length amounts
     /\ Forall (fun d => datetime.valid d /\ datetime.year d = 2002) dates
     /\ datetime.increasing dates
     /\ Forall (fun a => 0 <= a) amounts
     /\ (exists first rest, amounts = first :: rest /\ 0 < first))
  /\ get_standard_practices "N4-PA" 2002 = Raise AssertionError.
Proof.
  split.
  - apply (proj1 (standard_practices_paired "N2-WA" 2002)).
    + unfold treatments_list.
      repeat first [apply list_elem_of_here | apply list_elem_of_further].
    + lia.
  - apply (proj2 (standard_practices_paired "N4-PA" 2002)).
    unfold treatments_list. intros Hin.
    repeat (apply elem_of_cons in Hin; destruct Hin as [Hin | Hin];
            [discriminate Hin |]).
    apply elem_of_nil in Hin. exact Hin.
Defined.

(** ** Size of the annual deposition *)

Lemma of_int_le (a b : Z) : a <= b -> (of_int a <= of_int b)%Qc.
Proof.
  intros Hab. unfold of_int, Qcle. rewrite !this_Q2Qc.
  rewrite <- Zle_Qle. exact Hab.
Qed.

Lemma of_int_lt (a b : Z) : a < b -> (of_int a < of_int b)%Qc.
Proof.
  intros Hab. unfold of_int, Qclt. rewrite !this_Q2Qc.
  rewrite <- Zlt_Qlt. exact Hab.
Qed.

(** The statistics never go below the values of 2030. *)
Lemma deposition_amount_floor (year : option Z) :
  (num 8.83 <= fst (get_deposition_amount year))%Qc
  /\ (num 2.948 <= snd (get_deposition_amount year))%Qc.
Proof.
  destruct year as [y |]; cbn [get_deposition_amount fst snd].
  2: { split; qc_linear. }
  destruct (Z_lt_le_dec 2030 y) as [Hgt | Hle].
  - replace (1900 <? y) with true by (symmetry; apply Z.ltb_lt; lia).
    replace (2030 <? y) with true by (symmetry; apply Z.ltb_lt; lia).
    cbn [andb fst snd]. split; qc_linear.
  - replace (2030 <? y) with false by (symmetry; apply Z.ltb_ge; lia).
    rewrite andb_false_r. cbn [fst snd].
    pose proof (of_int_le y 2030 Hle) as Hq.
    split; qc_linear.
Qed.



(** ** Where [input_nue] takes the deposition from *)

(** X5. [input_nue] silently drops arguments: without both dates, a lone
    [no3_depo] or [nh4_depo] is ignored and the statistics of the year are
    used; with both deposition values and without both dates the year is
    ignored; with both dates the deposition values are ignored, a missing
    year fails the assertion, and from the year 2500 on the dates are
    ignored as well and the deposition is the constant 9 + 3. *)
Theorem input_nue_ignored_arguments
    (n_input : Qc) (year : option Z) (start end_ : option datetime.date)
    (n_seed : Qc) (no3_depo nh4_depo : option Qc) :
  (start = None \/ end_ = None -> no3_depo = None \/ nh4_depo = None ->
   input_nue n_input year start end_ n_seed no3_depo nh4_depo
   = Ok (n_input + n_seed
         + (fst (get_deposition_amount year)
            + snd (get_deposition_amount year)))%Qc)
  /\ (forall no3 nh4 year',
      start = None \/ end_ = None ->
      input_nue n_input year start end_ n_seed (Some no3) (Some nh4)
      = Ok (n_input + n_seed + (nh4 + no3))%Qc
      /\ input_nue n_input year' start end_ n_seed (Some no3) (Some nh4)
         = input_nue n_input year start end_ n_seed (Some no3) (Some nh4))
  /\ (forall s e,
      input_nue n_input year (Some s) (Some e) n_seed no3_depo nh4_depo
      = input_nue n_input year (Some s) (Some e) n_seed None None)
  /\ (forall s e,
      input_nue n_input None (Some s) (Some e) n_seed no3_depo nh4_depo
      = Raise AssertionError)
  /\ (forall s e y, 2500 <= y ->
      input_nue n_input (Some y) (Some s) (Some e) n_seed no3_depo nh4_depo
      = Ok (n_input + n_seed + (num 9 + num 3))%Qc).
Proof.
  split; [| split; [| split; [| split]]].
  - intros Hdates Hdepo. unfold input_nue.
    assert (H1 : bool_decide (start = None) || bool_decide (end_ = None) = true)
      by (destruct Hdates as [-> | ->]; [| rewrite orb_true_r]; reflexivity).
    assert (H2 : bool_decide (no3_depo = None) || bool_decide (nh4_depo = None)
                 = true)
      by (destruct Hdepo as [-> | ->]; [| rewrite orb_true_r]; reflexivity).
    rewrite H1, H2. cbn [andb mbind result_bind].
    destruct (get_deposition_amount year). reflexivity.
  - intros no3 nh4 year' Hdates.
    assert (H1 : bool_decide (start = None) || bool_decide (end_ = None) = true)
      by (destruct Hdates as [-> | ->]; [| rewrite orb_true_r]; reflexivity).
    unfold input_nue. rewrite H1. split; reflexivity.
  - intros s e. unfold input_nue. cbn [bool_decide decide_rel orb andb].
    reflexivity.
  - intros s e. unfold input_nue. reflexivity.
  - intros s e y Hy. unfold input_nue.
    cbn [bool_decide decide_rel orb andb mbind result_bind].
    replace (y <? 2500) with false by (symmetry; apply Z.ltb_ge; lia).
    unfold get_deposition_amount.
    replace (1900 <? y) with true by (symmetry; apply Z.ltb_lt; lia).
    replace (2030 <? y) with true by (symmetry; apply Z.ltb_lt; lia).
    reflexivity.
Qed.

Lemma input_nue_ignored_arguments_witness :
  input_nue (num 100) (Some 2002) None None n_seed_default (Some (num 7)) None
  = Ok (num 100 + n_seed_default
        + (fst (get_deposition_amount (Some 2002))
           + snd (get_deposition_amount (Some 2002))))%Qc
  /\ input_nue (num 100) (Some 4098)
       (Some (datetime.Date 2002 3 1)) (Some (datetime.Date 2002 2 1))
       n_seed_default (Some (num 7)) (Some (num 8))
     = Ok (num 100 + n_seed_default + (num 9 + num 3))%Qc.
Proof.
  split.
  - apply (proj1 (input_nue_ignored_arguments (num 100) (Some 2002) None None
                    n_seed_default (Some (num 7)) None));
      [left | right]; reflexivity.
  - apply (proj2 (proj2 (proj2 (proj2
             (input_nue_ignored_arguments (num 100) None None None
                n_seed_default (Some (num 7)) (Some (num 8))))))).
    lia.
Defined.



(** On a zero input: a negative fertiliser amount that cancels seed and
    deposition. *)
Lemma calculate_nue_zero_input_witness :
  calculate_nue (num (-15.5)) (num 50) None None None n_seed_default None None
  = Raise ZeroDivisionError.
Proof.
  apply (calculate_nue_zero_input (num (-15.5)) (num 50) None None None
           n_seed_default None None).
  unfold input_nue. cbn. reflexivity.
Defined.

Lemma disaggregated_year_boundary_raises_witness :
  get_disaggregated_deposition (Some 2002)
    (datetime.Date 2001 10 3) (datetime.Date 2002 1 1)
  = Raise AssertionError.
Proof.
  apply (disaggregated_year_boundary_raises (Some 2002)
           (datetime.Date 2001 10 3) (datetime.Date 2002 1 1));
    [reflexivity | reflexivity | reflexivity | cbn; lia | right; reflexivity].
Defined.

(** ** Days between dates *)

Ltac month_cases m :=
  let H := fresh "Hmonth" in
  assert (H : m = 1 \/ m = 2 \/ m = 3 \/ m = 4 \/ m = 5 \/ m = 6
              \/ m = 7 \/ m = 8 \/ m = 9 \/ m = 10 \/ m = 11 \/ m = 12)
    by lia;
  repeat (destruct H as [H | H]; [subst m |]); [.. | subst m].

(** The days of a month end before the next months begin. *)
Lemma days_before_month_step (y m d m' : Z) :
  1 <= m -> m < m' -> m' <= 12 ->
  d <= datetime._days_in_month y m ->
  datetime._days_before_month y m + d <= datetime._days_before_month y m'.
Proof.
  intros Hm Hlt Hm'.
  unfold datetime._days_in_month, datetime._days_before_month.
  destruct (isleap y); month_cases m; month_cases m';
    try lia; simpl; lia.
Qed.

(** A date lies within the days of its year. *)
Lemma day_of_year_bounds (y m d : Z) :
  1 <= m <= 12 -> 1 <= d <= datetime._days_in_month y m ->
  1 <= datetime._days_before_month y m + d
       <= 365 + (if isleap y then 1 else 0).
Proof.
  intros Hm.
  unfold datetime._days_in_month, datetime._days_before_month.
  destruct (isleap y); month_cases m; simpl; lia.
Qed.

Lemma valid_fields (d : datetime.date) :
  datetime.valid d ->
  1 <= datetime.month d <= 12
  /\ 1 <= datetime.day d
          <= datetime._days_in_month (datetime.year d) (datetime.month d).
Proof.
  unfold datetime.valid, datetime._check_date_fields.
  rewrite !andb_true_iff, !Z.leb_le. tauto.
Qed.

(** Within one year the order of the dates is the order of their ordinals,
    and two dates are less than a year apart. *)
Lemma same_year_days (s e : datetime.date) :
  datetime.valid s -> datetime.valid e ->
  datetime.year s = datetime.year e ->
  datetime.lt s e = true ->
  0 < datetime.sub_days e s
    < 365 + (if isleap (datetime.year s) then 1 else 0).
Proof.
  intros Hs He Hy Hlt.
  apply valid_fields in Hs as [Hms Hds]. apply valid_fields in He as [Hme Hde].
  destruct s as [y m d], e as [y' m' d'].
  cbn [datetime.year datetime.month datetime.day] in *. subst y'.
  rewrite lt_same_year in Hlt.
  unfold datetime.sub_days, datetime.toordinal, datetime._ymd2ord.
  cbn [datetime.year datetime.month datetime.day].
  pose proof (day_of_year_bounds y m d Hms Hds) as Hbs.
  pose proof (day_of_year_bounds y m' d' Hme Hde) as Hbe.
  apply orb_true_iff in Hlt as [Hlt | Hlt].
  - apply Z.ltb_lt in Hlt.
    pose proof (days_before_month_step y m d m' ltac:(lia) Hlt ltac:(lia)
                  ltac:(lia)).
    lia.
  - apply andb_true_iff in Hlt as [Hm Hd].
    apply Z.eqb_eq in Hm. apply Z.ltb_lt in Hd. subst m'. lia.
Qed.



(** A positive count that is less than the whole is a proper fraction. *)
Lemma ratio_bounds (d n : Qc) :
  (0 < d)%Qc -> (d < n)%Qc -> (0 < d / n)%Qc /\ (d / n < 1)%Qc.
Proof.
  unfold Qclt. rewrite this_div.
  change (this 0%Qc) with 0%Q. change (this 1%Qc) with 1%Q.
  intros Hd Hn. split.
  - apply Qlt_shift_div_l; Lqa.lra.
  - apply Qlt_shift_div_r; Lqa.lra.
Qed.

(** X7. Within one calendar year, for valid dates [s < e] the call returns
    a positive share of each annual amount that is strictly less than the
    annual amount: the day count lies strictly between 0 and the length of
    the year. *)
Theorem disaggregated_share_of_year (y : Z) (s e : datetime.date) :
  datetime.valid s -> datetime.valid e ->
  datetime.lt s e = true ->
  datetime.year s = y -> datetime.year e = y ->
  exists nh4 no3,
    get_disaggregated_deposition (Some y) s e = Ok (nh4, no3)
    /\ (0 < nh4 < fst (get_deposition_amount (Some y)))%Qc
    /\ (0 < no3 < snd (get_deposition_amount (Some y)))%Qc.
Proof.
  intros Hs He Hlt Hys Hye.
  pose proof (same_year_days s e Hs He ltac:(congruence) Hlt) as Hdays.
  rewrite Hys in Hdays.
  unfold get_disaggregated_deposition. rewrite recursion_limit_eq.
  rewrite (disaggregated_same_year _ y s e Hlt ltac:(congruence)).
  cbn zeta. eexists. eexists. split; [reflexivity |].
  destruct (deposition_amount_floor (Some y)) as [Hnh4 Hno3].
  set (days := datetime.sub_days e s) in *.
  set (n := 365 + (if isleap y then 1 else 0)) in *.
  assert (Hr : (0 < of_int days / of_int n)%Qc
               /\ (of_int days / of_int n < 1)%Qc).
  { apply ratio_bounds.
    - change 0%Qc with (of_int 0). apply of_int_lt. lia.
    - apply of_int_lt. lia. }
  destruct Hr as [Hr0 Hr1].
  set (r := (of_int days / of_int n)%Qc) in *.
  set (a := fst (get_deposition_amount (Some y))) in *.
  set (b := snd (get_deposition_amount (Some y))) in *.
  assert (Ha : (0 < a)%Qc) by (clearbody a; qc_linear).
  assert (Hb : (0 < b)%Qc) by (clearbody b; qc_linear).
  assert (Hmul : forall x : Qc, (0 < x)%Qc -> (0 < x * r)%Qc /\ (x * r < x)%Qc).
  { intros x Hx. split.
    - rewrite <- (Qcmult_0_l r). apply Qcmult_lt_compat_r; assumption.
    - pose proof (Qcmult_lt_compat_r r 1 x Hx Hr1) as Hlt1.
      rewrite Qcmult_1_l in Hlt1. rewrite Qcmult_comm. exact Hlt1. }
  split; apply Hmul; assumption.
Qed.

Lemma disaggregated_share_of_year_witness :
  exists nh4 no3,
    get_disaggregated_deposition (Some 2002)
      (datetime.Date 2002 1 1) (datetime.Date 2002 2 1)
    = Ok (nh4, no3)
    /\ (0 < nh4 < fst (get_deposition_amount (Some 2002)))%Qc
    /\ (0 < no3 < snd (get_deposition_amount (Some 2002)))%Qc.
Proof.
  apply (disaggregated_share_of_year 2002
           (datetime.Date 2002 1 1) (datetime.Date 2002 2 1));
    reflexivity.
Defined.



(** ** The nitrogen surplus and efficiency formulas *)

Import ContainerNUE.

(** [max(0, min(1, x))] clamps to the unit interval. *)
Lemma clamp_bounds (x : Qc) :
  (0 <= max_ 0 (min_ 1 x))%Qc /\ (max_ 0 (min_ 1 x) <= 1)%Qc.
Proof. unfold max_, min_. qc_cases; split; qc_linear. Qed.

Lemma clamp_one (x : Qc) : max_ 0%Qc (min_ 1%Qc x) = 1%Qc <-> (1 <= x)%Qc.
Proof. unfold max_, min_. qc_cases; split; intros H; qc_linear. Qed.


(** The distance to the middle of an interval, less half its length, is the
    distance to the interval. *)
Lemma abs_within (x mid half : Qc) :
  (abs_ (x - mid) - half <= 0)%Qc <-> (mid - half <= x)%Qc /\ (x <= mid + half)%Qc.
Proof.
  unfold abs_. qc_cases; (split; [intros H; split | intros [H1 H2]]); qc_linear.
Qed.


Lemma unit_product (a b : Qc) :
  (0 <= a)%Qc -> (a <= 1)%Qc -> (0 <= b)%Qc -> (b <= 1)%Qc ->
  ((0 <= a * b)%Qc /\ (a * b <= 1)%Qc)
  /\ ((a * b)%Qc = 1%Qc <-> a = 1%Qc /\ b = 1%Qc)
  /\ ((a * b)%Qc = 0%Qc <-> a = 0%Qc \/ b = 0%Qc).
Proof.
  intros Ha0 Ha1 Hb0 Hb1. split; [| split].
  - split; qc_nonlinear.
  - split.
    + intros H. split; qc_nonlinear.
    + intros [-> ->]. ring.
  - split.
    + apply Qcmult_integral.
    + intros [-> | ->]; ring.
Qed.

Lemma n_surplus_formula_factors (n_surplus nue : Qc) :
  n_surplus_formula n_surplus nue nsurp_width_default nue_width_default
  = Ok (base_nsurp n_surplus * base_nue nue)%Qc.
Proof.
  unfold n_surplus_formula, nsurp_width_default, nue_width_default.
  rewrite (truediv_ok _ (num 100)) by qc_differ. cbn [mbind result_bind].
  rewrite (truediv_ok _ (num 1)) by qc_differ. cbn [mbind result_bind].
  unfold base_nsurp, base_nue. reflexivity.
Qed.

Lemma n_surplus_formula_piecewise_factors (n_surplus nue : Qc) :
  n_surplus_formula_piecewise n_surplus nue nsurp_width_default
    nue_width_default
  = Ok (base_nsurp n_surplus
        * nue_condition_simple nue nue_simple_lower_bound_default
            nue_simple_upper_bound_default)%Qc.
Proof.
  unfold n_surplus_formula_piecewise, nsurp_width_default.
  rewrite (truediv_ok _ (num 100)) by qc_differ. cbn [mbind result_bind].
  unfold base_nsurp. reflexivity.
Qed.

Lemma base_nsurp_bounds (n_surplus : Qc) :
  (0 <= base_nsurp n_surplus)%Qc /\ (base_nsurp n_surplus <= 1)%Qc.
Proof. unfold base_nsurp. apply clamp_bounds. Qed.

Lemma base_nue_bounds (nue : Qc) :
  (0 <= base_nue nue)%Qc /\ (base_nue nue <= 1)%Qc.
Proof. unfold base_nue. apply clamp_bounds. Qed.



Lemma base_nue_one (nue : Qc) :
  base_nue nue = 1%Qc <-> (num 0.5 <= nue)%Qc /\ (nue <= num 0.9)%Qc.
Proof.
  unfold base_nue. rewrite clamp_one.
  pose proof (abs_within nue (num 0.7) (num 0.2)) as Habs.
  split.
  - intros H. assert (Hd : (abs_ (nue - num 0.7) - num 0.2 <= 0)%Qc).
    { set (d := (abs_ (nue - num 0.7) - num 0.2)%Qc) in *.
      clearbody d. clear Habs. qc_linear. }
    apply Habs in Hd as [Hlo Hhi]. split; qc_linear.
  - intros [Hlo Hhi].
    assert (Hd : (abs_ (nue - num 0.7) - num 0.2 <= 0)%Qc)
      by (apply Habs; split; qc_linear).
    set (d := (abs_ (nue - num 0.7) - num 0.2)%Qc) in *.
    clearbody d. clear Habs. qc_linear.
Qed.



(** X10. The piecewise variant never exceeds [n_surplus_formula]: for an
    efficiency in [0.5, 0.9] the two agree, and for any other efficiency the
    piecewise variant is 0. *)
Theorem n_surplus_formula_piecewise_below (n_surplus nue : Qc) :
  exists v v',
    n_surplus_formula n_surplus nue nsurp_width_default nue_width_default
    = Ok v
    /\ n_surplus_formula_piecewise n_surplus nue nsurp_width_default
         nue_width_default
       = Ok v'
    /\ (v' <= v)%Qc
    /\ ((num 0.5 <= nue)%Qc /\ (nue <= num 0.9)%Qc -> v' = v)
    /\ (~ ((num 0.5 <= nue)%Qc /\ (nue <= num 0.9)%Qc) -> v' = 0%Qc).
Proof.
  eexists. eexists.
  split; [apply n_surplus_formula_factors |].
  split; [apply n_surplus_formula_piecewise_factors |].
  destruct (base_nsurp_bounds n_surplus) as [Ha0 Ha1].
  destruct (base_nue_bounds nue) as [Hb0 Hb1].
  destruct (unit_product _ _ Ha0 Ha1 Hb0 Hb1) as ([H0 H1] & _ & _).
  assert (Hin : (num 0.5 <= nue)%Qc /\ (nue <= num 0.9)%Qc ->
                nue_condition_simple nue nue_simple_lower_bound_default
                  nue_simple_upper_bound_default = 1%Qc).
  { intros [Hlo Hhi].
    unfold nue_condition_simple, nue_simple_lower_bound_default,
      nue_simple_upper_bound_default.
    qc_cases; try reflexivity; exfalso; qc_linear. }
  assert (Hout : ~ ((num 0.5 <= nue)%Qc /\ (nue <= num 0.9)%Qc) ->
                 nue_condition_simple nue nue_simple_lower_bound_default
                   nue_simple_upper_bound_default = 0%Qc).
  { intros Hnot.
    unfold nue_condition_simple, nue_simple_lower_bound_default,
      nue_simple_upper_bound_default.
    qc_cases; try reflexivity. exfalso. apply Hnot. split; assumption. }
  assert (Hsame : (num 0.5 <= nue)%Qc /\ (nue <= num 0.9)%Qc ->
                  (base_nsurp n_surplus
                   * nue_condition_simple nue nue_simple_lower_bound_default
                       nue_simple_upper_bound_default)%Qc
                  = (base_nsurp n_surplus * base_nue nue)%Qc).
  { intros Hnue. rewrite (Hin Hnue).
    rewrite (proj2 (base_nue_one nue) Hnue). reflexivity. }
  split; [| split].
  - destruct (Qclt_le_dec nue (num 0.5)) as [Hlo | Hlo].
    + rewrite Hout, Qcmult_0_r; [exact H0 |]. intros [H5 _]. qc_linear.
    + destruct (Qclt_le_dec (num 0.9) nue) as [Hhi | Hhi].
      * rewrite Hout, Qcmult_0_r; [exact H0 |]. intros [_ H9]. qc_linear.
      * rewrite Hsame by (split; assumption). apply Qcle_refl.
  - exact Hsame.
  - intros Hnot. rewrite (Hout Hnot). apply Qcmult_0_r.
Qed.

Lemma yield_range_neq_0 : (maxy_default - miny_default)%Qc <> 0%Qc.
Proof. qc_differ. Qed.






(** X13. [n_surplus_penalty] is the distance of the surplus to the interval
    [0, 40] times [reduction]: nothing for a surplus in (0, 40],
    [reduction * (-n)] for [n <= 0] and [reduction * (n - 40)] for
    [n > 40]. *)
Theorem n_surplus_penalty_distance (nsurplus reduction : Qc) :
  ((0 < nsurplus)%Qc -> (nsurplus <= num 40)%Qc ->
   n_surplus_penalty nsurplus reduction = 0%Qc)
  /\ ((nsurplus <= 0)%Qc ->
      n_surplus_penalty nsurplus reduction = (reduction * - nsurplus)%Qc)
  /\ ((num 40 < nsurplus)%Qc ->
      n_surplus_penalty nsurplus reduction
      = (reduction * (nsurplus - num 40))%Qc).
Proof.
  unfold n_surplus_penalty. split; [| split].
  - intros H0 H40. rewrite !bool_decide_eq_true_2 by assumption. reflexivity.
  - intros Hn. rewrite (bool_decide_eq_false_2 (0 < nsurplus)%Qc)
      by (intros H; qc_linear).
    cbn [andb]. f_equal. unfold min_, abs_. qc_cases; qc_linear.
  - intros Hn. rewrite (bool_decide_eq_false_2 (nsurplus <= num 40)%Qc)
      by (intros H; qc_linear).
    rewrite andb_false_r. f_equal. unfold min_, abs_. qc_cases; qc_linear.
Qed.

Lemma n_surplus_penalty_distance_witness :
  n_surplus_penalty (num 55) (num 100) = (num 100 * (num 55 - num 40))%Qc.
Proof.
  apply (proj2 (proj2 (n_surplus_penalty_distance (num 55) (num 100)))).
  qc_linear.
Defined.

(** ** ContainerANE *)

(** X14. [ContainerANE.reward] never divides by zero: whenever the two
    growth computations return, the call returns.  With a cumulative amount
    of zero the efficiency is the cumulative benefit itself and
    [moving_ane] keeps its old value; otherwise it is the benefit per unit
    of the cumulative amount and is stored in [moving_ane].  The reward is
    the efficiency minus the amount of this step. *)
Theorem container_ane_reward_defined `{process_pcse}
    (self : ContainerANE.t) (output : Output) (output_baseline : option Output)
    (amount growth growth_baseline : Qc) :
  compute_growth_storage_organ (Some output) (ContainerANE.timestep self) 1%Qc
  = Ok growth ->
  compute_growth_storage_organ output_baseline (ContainerANE.timestep self)
    1%Qc
  = Ok growth_baseline ->
  let total := (ContainerANE.cum_amount self + amount)%Qc in
  let benefit :=
    (ContainerANE.cum_growth self + growth
     - (ContainerANE.cum_baseline_growth self + growth_baseline))%Qc in
  exists ane self',
    ContainerANE.reward self output output_baseline amount
    = (Ok ((ane - amount)%Qc, growth), self')
    /\ ContainerANE.cum_amount self' = total
    /\ (ContainerANE.cum_growth self' - ContainerANE.cum_baseline_growth self'
        = benefit)%Qc
    /\ (total = 0%Qc ->
        ane = benefit
        /\ ContainerANE.moving_ane self' = ContainerANE.moving_ane self)
    /\ (total <> 0%Qc ->
        ane = (benefit / total)%Qc /\ ContainerANE.moving_ane self' = ane).
Proof.
  intros Hgrowth Hbaseline total benefit.
  unfold ContainerANE.reward, ContainerANE.cumulative.
  rewrite Hgrowth, Hbaseline. cbn [mbind result_bind].
  cbn [ContainerANE.cum_amount ContainerANE.cum_growth
       ContainerANE.cum_baseline_growth ContainerANE.timestep
       ContainerANE.moving_ane].
  fold total. fold benefit.
  destruct (bool_decide_reflect (total = 0%Qc)) as [Hzero | Hpos].
  - assert (Hone : (1%Qc : Qc) <> 0%Qc) by qc_differ.
    rewrite (truediv_ok benefit 1%Qc Hone). cbn [mbind result_bind].
    eexists _, _. split; [reflexivity |].
    cbn [ContainerANE.cum_amount ContainerANE.cum_growth
         ContainerANE.cum_baseline_growth ContainerANE.moving_ane].
    split; [reflexivity |]. split; [reflexivity |]. split.
    + intros _. split; [| reflexivity].
      apply Qc_is_canon. rewrite this_div. change (this 1%Qc) with 1%Q.
      unfold Qdiv. change (/ 1)%Q with 1%Q. apply Qmult_1_r.
    + intros Hpos. contradiction.
  - rewrite (truediv_ok benefit total Hpos).
    eexists _, _. split; [reflexivity |].
    cbn [ContainerANE.cum_amount ContainerANE.cum_growth
         ContainerANE.cum_baseline_growth ContainerANE.moving_ane].
    split; [reflexivity |]. split; [reflexivity |]. split.
    + intros Hzero. contradiction.
    + intros _. split; reflexivity.
Qed.

Lemma container_ane_reward_defined_witness :
  exists ane self',
    @ContainerANE.reward samples.last_twso (ContainerANE.init 7)
      samples.harvest (Some samples.harvest_baseline) 0%Qc
    = (Ok ((ane - 0)%Qc, num 812.5), self')
    /\ ContainerANE.cum_amount self' = (0 + 0)%Qc
    /\ (ContainerANE.cum_growth self' - ContainerANE.cum_baseline_growth self'
        = 0 + num 812.5 - (0 + num 540))%Qc
    /\ ((0 + 0)%Qc = 0%Qc ->
        ane = (0 + num 812.5 - (0 + num 540))%Qc
        /\ ContainerANE.moving_ane self' = 0%Qc)
    /\ ((0 + 0)%Qc <> 0%Qc ->
        ane = ((0 + num 812.5 - (0 + num 540)) / (0 + 0))%Qc
        /\ ContainerANE.moving_ane self' = ane).
Proof.
  apply (@container_ane_reward_defined samples.last_twso (ContainerANE.init 7)
           samples.harvest (Some samples.harvest_baseline) 0%Qc
           (num 812.5) (num 540)).
  - vm_compute; f_equal; qc_closed.
  - vm_compute; f_equal; qc_closed.
Defined.

(** ** Rewards that keep a container up to date *)

Import episodes.

Lemma positive_reward_keeps_books `{process_pcse} (c : ContainerEND.t)
    (output : Output) (output_baseline : option Output) (multiplier : Qc) :
  booked 0%Qc c
    (snd (ContainerEND.calculate_positive_reward_cumulative c output
            output_baseline multiplier)).
Proof.
  unfold ContainerEND.calculate_positive_reward_cumulative.
  destruct (if falsy output_baseline then _ else _) as [benefits | e];
    cbn [snd]; unfold booked;
    cbn [ContainerEND.costs_nitrogen ContainerEND.actions
         ContainerEND.cum_amount ContainerEND.cum_cost
         ContainerEND.cum_misc_cost];
    repeat split; ring.
Qed.

Lemma booked_after_positive_reward `{process_pcse} (c : ContainerEND.t)
    (amount : Qc) (output : Output) (output_baseline : option Output)
    (multiplier : Qc) :
  booked amount c
    (snd (ContainerEND.calculate_positive_reward_cumulative
            (ContainerEND.calculate_cost_cumulative
               (ContainerEND.calculate_amount c amount) amount)
            output output_baseline multiplier)).
Proof.
  destruct (positive_reward_keeps_books
              (ContainerEND.calculate_cost_cumulative
                 (ContainerEND.calculate_amount c amount) amount)
              output output_baseline multiplier)
    as (Hk & Ha & Hc & Hm & Hx).
  unfold booked. rewrite Hk, Ha, Hc, Hm, Hx.
  cbn [ContainerEND.calculate_cost_cumulative ContainerEND.calculate_amount
       ContainerEND.costs_nitrogen ContainerEND.actions
       ContainerEND.cum_amount ContainerEND.cum_cost
       ContainerEND.cum_misc_cost].
  repeat split; ring.
Qed.

(** X15. [END], [NUE] and [DNE] book the amount before they compute any
    growth: whether the call returns or the growth computation raises, the
    container afterwards has [amount] more in [actions] and [cum_amount]
    and [amount * costs_nitrogen] (the container's price) more in
    [cum_cost].  A returned reward of [END] and [DNE] is
    [- amount * costs_nitrogen] at the price of the reward object; that of
    [NUE] is [- costs_nitrogen] per application, whatever its size. *)
Theorem sparse_rewards_book_first `{process_pcse} (self : Rew.t)
    (output : Output) (amount : Qc) (output_baseline : option Output)
    (multiplier : Qc) (c : ContainerEND.t) :
  let END := END.return_reward self output amount output_baseline multiplier
               (Some c) in
  let NUE := NUE.return_reward self output amount output_baseline multiplier
               (Some c) in
  let DNE := DNE.return_reward self output amount output_baseline multiplier
               (Some c) in
  (exists c', snd END = Some c' /\ booked amount c c')
  /\ (exists c', snd NUE = Some c' /\ booked amount c c')
  /\ (exists c', snd DNE = Some c' /\ booked amount c c')
  /\ (forall reward growth, fst END = Ok (reward, growth) ->
      reward = (- (amount * Rew.costs_nitrogen self))%Qc)
  /\ (forall reward growth, fst DNE = Ok (reward, growth) ->
      reward = (- (amount * Rew.costs_nitrogen self))%Qc)
  /\ (forall reward growth, fst NUE = Ok (reward, growth) ->
      reward = if bool_decide (0 < amount)%Qc
               then (- Rew.costs_nitrogen self)%Qc else 0%Qc).
Proof.
  intros END NUE DNE. subst END NUE DNE.
  unfold END.return_reward, NUE.return_reward, DNE.return_reward.
  pose proof (booked_after_positive_reward c amount output output_baseline
                1%Qc) as Hone.
  pose proof (booked_after_positive_reward c amount output output_baseline
                multiplier) as Hmul.
  destruct (ContainerEND.calculate_positive_reward_cumulative _ output
              output_baseline 1%Qc) as [[[] | e1] c1];
    destruct (ContainerEND.calculate_positive_reward_cumulative _ output
                output_baseline multiplier) as [[[] | e2] c2];
    cbn [fst snd] in *;
    (split; [exists c1; split; [reflexivity | exact Hone] |]);
    (split; [exists c2; split; [reflexivity | exact Hmul] |]);
    (split; [exists c2; split; [reflexivity | exact Hmul] |]);
    destruct (compute_growth_storage_organ (Some output) (Rew.timestep self)
                multiplier) as [growth | e];
    cbn [mbind result_bind];
    repeat split; intros reward growth' Heq; try discriminate Heq;
    apply (f_equal (fun r => match r with
                             | Ok (reward, _) => reward
                             | Raise _ => 0%Qc
                             end)) in Heq;
    rewrite <- Heq; try reflexivity; try ring.
  all: destruct (bool_decide (0 < amount)%Qc); reflexivity || ring.
Qed.





(** X17. [calculate_cost_n] adds the amount to [cum_amount] and nothing to
    the cost: the dumped cost is unchanged, and a container whose cost
    matched its amount no longer does, unless the amount or the nitrogen
    price is zero. *)
Theorem cost_n_leaves_cost_unbooked (self : ContainerEND.t) (amount : Qc) :
  cost_matches_amount self ->
  ContainerEND.dump_cumulative_cost (ContainerEND.calculate_cost_n self amount)
  = ContainerEND.dump_cumulative_cost self
  /\ ContainerEND.cum_amount (ContainerEND.calculate_cost_n self amount)
     = (ContainerEND.cum_amount self + amount)%Qc
  /\ (cost_matches_amount (ContainerEND.calculate_cost_n self amount)
      <-> ContainerEND.costs_nitrogen self = 0%Qc \/ amount = 0%Qc).
Proof.
  unfold cost_matches_amount, ContainerEND.dump_cumulative_cost.
  cbn [ContainerEND.calculate_cost_n ContainerEND.cum_cost
       ContainerEND.cum_misc_cost ContainerEND.cum_amount
       ContainerEND.costs_nitrogen].
  intros Hinv. split; [reflexivity | split; [reflexivity |]].
  rewrite Hinv. split.
  - intros Heq. apply Qcmult_integral.
    assert (Hsum : (ContainerEND.costs_nitrogen self
                    * (ContainerEND.cum_amount self + amount)
                    = ContainerEND.costs_nitrogen self
                      * ContainerEND.cum_amount self
                      + ContainerEND.costs_nitrogen self * amount)%Qc) by ring.
    rewrite Hsum in Heq.
    set (x := (ContainerEND.costs_nitrogen self
               * ContainerEND.cum_amount self)%Qc) in *.
    set (y := (ContainerEND.costs_nitrogen self * amount)%Qc) in *.
    clearbody x y. qc_linear.
  - intros [Hzero | Hzero]; rewrite Hzero; ring.
Qed.

Lemma cost_n_leaves_cost_unbooked_witness :
  let self := ContainerEND.init 7 (num 10) in
  ContainerEND.dump_cumulative_cost (ContainerEND.calculate_cost_n self (num 5))
  = ContainerEND.dump_cumulative_cost self
  /\ ContainerEND.cum_amount (ContainerEND.calculate_cost_n self (num 5))
     = (ContainerEND.cum_amount self + num 5)%Qc
  /\ (cost_matches_amount (ContainerEND.calculate_cost_n self (num 5))
      <-> ContainerEND.costs_nitrogen self = 0%Qc \/ num 5 = 0%Qc).
Proof.
  intros self.
  apply (cost_n_leaves_cost_unbooked self (num 5)).
  unfold cost_matches_amount, self.
  cbn [ContainerEND.init ContainerEND.cum_cost ContainerEND.cum_amount
       ContainerEND.costs_nitrogen].
  ring.
Defined.

(** ** Deployment cost *)



(** ** Net profit with yearly prices *)

Lemma table_prices_positive :
  forallb (fun year =>
    match wheat_prices !! year, nitrogen_prices !! year with
    | Some wheat, Some nitrogen =>
        (0 <? Qnum (this wheat)) && (0 <? Qnum (this nitrogen))
    | _, _ => false
    end) (seqZ 1989 35) = true.
Proof. vm_compute. reflexivity. Qed.

Lemma positive_numerator (q : Qc) : 0 < Qnum (this q) -> (0 < q)%Qc.
Proof.
  intros Hnum. unfold Qclt, Qlt. change (this 0%Qc) with (0 # 1)%Q.
  cbn [Qnum Qden]. lia.
Qed.

(** X19. With [with_year=True] and a growth computation that returns,
    [calculate_net_profit] raises [KeyError] for every year outside 1989
    through 2023; for a year inside it returns
    [growth * wheat * 0.001 - amount * 10 * nitrogen * 0.01] with the two
    table entries of the year, both of which are positive, so that the
    profit grows with the growth and falls with the amount. *)
Theorem net_profit_with_year `{process_pcse}
    (output : Output) (amount : Qc) (year : Z) (multiplier : Qc)
    (timestep : Z) (growth : Qc) :
  compute_growth_storage_organ (Some output) timestep multiplier = Ok growth ->
  (1989 <= year <= 2023 ->
   exists wheat nitrogen,
     wheat_prices !! year = Some wheat
     /\ nitrogen_prices !! year = Some nitrogen
     /\ (0 < wheat)%Qc /\ (0 < nitrogen)%Qc
     /\ calculate_net_profit output amount year multiplier timestep true
        = Ok ((growth * (wheat * num 0.001)
               - amount * num 10 * (nitrogen * num 0.01))%Qc, growth))
  /\ (~ 1989 <= year <= 2023 ->
      calculate_net_profit output amount year multiplier timestep true
      = Raise KeyError).
Proof.
  intros Hgrowth.
  unfold calculate_net_profit, get_fertilizer_price, get_wheat_price_in_kgs,
    get_nitrogen_price_in_kgs, annual_price_wheat_per_ton,
    annual_price_nitrogen_per_quintal, getitem.
  rewrite Hgrowth. cbn [negb mbind result_bind].
  split.
  - intros Hyear.
    pose proof table_prices_positive as Htable.
    rewrite forallb_forall in Htable.
    specialize (Htable year).
    assert (Hin : In year (seqZ 1989 35))
      by (apply list_elem_of_In, elem_of_seqZ; lia).
    specialize (Htable Hin).
    destruct (wheat_prices !! year) as [wheat |]; [| discriminate Htable].
    destruct (nitrogen_prices !! year) as [nitrogen |];
      [| discriminate Htable].
    apply andb_true_iff in Htable as [Hw Hn].
    apply Z.ltb_lt in Hw, Hn.
    exists wheat, nitrogen. cbn [mbind result_bind].
    repeat split; try reflexivity; apply positive_numerator; assumption.
  - intros Hyear. rewrite <- in_tables in Hyear.
    assert (Hw : wheat_prices !! year = None)
      by (apply not_elem_of_dom; rewrite wheat_prices_dom; exact Hyear).
    rewrite Hw. reflexivity.
Qed.

Lemma net_profit_with_year_witness :
  calculate_net_profit (H := samples.last_twso) samples.harvest (num 2) 2024
    1%Qc 7 true
  = Raise KeyError.
Proof.
  apply (proj2 (@net_profit_with_year samples.last_twso samples.harvest
                  (num 2) 2024 1%Qc 7 (num 812.5)
                  ltac:(vm_compute; f_equal; qc_closed))).
  lia.
Defined.

(** ** The methods of [Rewards] *)

(** X20. The reward classes are the methods of [Rewards] behind a call of
    [calculate_amount]: for a [Rewards] object with the same timestep and
    nitrogen price, [GRO] returns what [growth_storage_organ] returns, [DEF]
    what [default_winterwheat_reward] returns, and [END] and [DNE] are
    [end_reward] and [nue_reward] on the container that
    [calculate_amount] has updated, exceptions and container included. *)
Theorem reward_classes_follow_methods `{process_pcse}
    (self : Rewards_methods.t) (output : Output) (amount : Qc)
    (output_baseline : option Output) (multiplier : Qc)
    (c : ContainerEND.t) :
  let rew := Rew.Build (Rewards_methods.timestep self)
               (Rewards_methods.costs_nitrogen self) in
  let counted := ContainerEND.calculate_amount c amount in
  GRO.return_reward rew output amount output_baseline multiplier (Some c)
  = (Rewards_methods.growth_storage_organ self output amount multiplier,
     Some counted)
  /\ DEF.return_reward rew output amount output_baseline multiplier (Some c)
     = (Rewards_methods.default_winterwheat_reward self output output_baseline
          amount multiplier,
        Some counted)
  /\ END.return_reward rew output amount output_baseline multiplier (Some c)
     = (fst (Rewards_methods.end_reward self counted output output_baseline
               amount multiplier),
        Some (snd (Rewards_methods.end_reward self counted output
                     output_baseline amount multiplier)))
  /\ DNE.return_reward rew output amount output_baseline multiplier (Some c)
     = (fst (Rewards_methods.nue_reward self counted output output_baseline
               amount multiplier),
        Some (snd (Rewards_methods.nue_reward self counted output
                     output_baseline amount multiplier))).
Proof.
  intros rew counted. subst rew counted.
  unfold GRO.return_reward, DEF.return_reward, END.return_reward,
    DNE.return_reward, Rewards_methods.growth_storage_organ,
    Rewards_methods.default_winterwheat_reward, Rewards_methods.end_reward,
    Rewards_methods.nue_reward.
  cbn [Rew.timestep Rew.costs_nitrogen].
  split; [reflexivity | split; [reflexivity | split]].
  - destruct (ContainerEND.calculate_positive_reward_cumulative _ output
                output_baseline 1%Qc) as [[[] | e] c']; reflexivity.
  - destruct (ContainerEND.calculate_positive_reward_cumulative _ output
                output_baseline multiplier) as [[[] | e] c']; reflexivity.
Qed.



(** ** Deposition read from the PCSE output *)

Lemma getitem_last_app {A} (earlier : list A) (record : A) :
  getitem_last (earlier ++ [record]) = Ok record.
Proof. unfold getitem_last. rewrite last_snoc. reflexivity. Qed.

(** X22. The three deposition getters read only the last record of the
    output: on an empty output they raise [IndexError]; otherwise the
    records before the last play no part, and [get_n_deposition_pcse]
    raises [KeyError] exactly when the last record lacks one of the two
    keys, and returns otherwise. *)
Theorem n_deposition_pcse_last_record
    (earlier : Output) (record : gmap string Qc) :
  (get_nh4_deposition_pcse [] = Raise IndexError
   /\ get_no3_deposition_pcse [] = Raise IndexError
   /\ get_n_deposition_pcse [] = Raise IndexError)
  /\ (get_nh4_deposition_pcse (earlier ++ [record])
      = get_nh4_deposition_pcse [record]
      /\ get_no3_deposition_pcse (earlier ++ [record])
         = get_no3_deposition_pcse [record]
      /\ get_n_deposition_pcse (earlier ++ [record])
         = get_n_deposition_pcse [record])
  /\ (get_n_deposition_pcse (earlier ++ [record]) = Raise KeyError
      <-> record !! "RNO3DEPOSTT"%string = None
          \/ record !! "RNH4DEPOSTT"%string = None)
  /\ (record !! "RNO3DEPOSTT"%string <> None ->
      record !! "RNH4DEPOSTT"%string <> None ->
      exists total, get_n_deposition_pcse (earlier ++ [record]) = Ok total).
Proof.
  assert (Hlast : forall f : gmap string Qc -> result Qc,
            (getitem_last (earlier ++ [record]) ≫= f)
            = (getitem_last [record] ≫= f)).
  { intros f. rewrite getitem_last_app. reflexivity. }
  assert (Hn : get_n_deposition_pcse (earlier ++ [record])
               = get_n_deposition_pcse [record]).
  { unfold get_n_deposition_pcse, get_no3_deposition_pcse,
      get_nh4_deposition_pcse.
    rewrite !getitem_last_app. reflexivity. }
  split; [repeat split; reflexivity |].
  split.
  { split; [| split]; [| | exact Hn];
      unfold get_nh4_deposition_pcse, get_no3_deposition_pcse;
      rewrite getitem_last_app; reflexivity. }
  rewrite Hn.
  unfold get_n_deposition_pcse, get_no3_deposition_pcse,
    get_nh4_deposition_pcse, getitem.
  change (getitem_last [record]) with (Ok record).
  cbn [mbind result_bind].
  destruct (record !! "RNO3DEPOSTT"%string) as [no3 |];
    destruct (record !! "RNH4DEPOSTT"%string) as [nh4 |];
    cbn [mbind result_bind];
    rewrite ?(truediv_ok _ _ m2_to_ha_neq_0); cbn [mbind result_bind];
    rewrite ?(truediv_ok _ _ m2_to_ha_neq_0).
  - split.
    + split; [discriminate | intros [H | H]; discriminate].
    + intros _ _. eexists. reflexivity.
  - split.
    + split; [intros _; right; reflexivity | reflexivity].
    + intros _ H. contradiction.
  - split.
    + split; [intros _; left; reflexivity | reflexivity].
    + intros H. contradiction.
  - split.
    + split; [intros _; left; reflexivity | reflexivity].
    + intros H. contradiction.
Qed.

(** ** Labour price *)



(** ** The reward on nitrogen use efficiency *)

Lemma formula_nue_value (n_surplus nue end_yield : Qc) :
  formula_nue n_surplus nue end_yield false
  = Ok (base_nsurp n_surplus * base_nue nue
        + include_yield_req (base_nsurp n_surplus * base_nue nue)
            (max_ 0%Qc ((end_yield - miny_default)
                        / (maxy_default - miny_default))))%Qc.
Proof.
  unfold formula_nue. cbn [negb].
  rewrite n_surplus_formula_factors. cbn [mbind result_bind].
  unfold normalize_yield. rewrite (truediv_ok _ _ yield_range_neq_0).
  reflexivity.
Qed.

Lemma formula_nue_nonnegative (n_surplus nue end_yield : Qc) :
  exists v,
    formula_nue n_surplus nue end_yield false = Ok v /\ (0 <= v)%Qc.
Proof.
  rewrite formula_nue_value. eexists. split; [reflexivity |].
  destruct (base_nsurp_bounds n_surplus) as [Ha0 Ha1].
  destruct (base_nue_bounds nue) as [Hb0 Hb1].
  destruct (unit_product _ _ Ha0 Ha1 Hb0 Hb1) as ([H0 H1] & _ & _).
  set (v := (base_nsurp n_surplus * base_nue nue)%Qc) in *. clearbody v.
  assert (Hy : (0 <= include_yield_req v
                      (max_ 0%Qc ((end_yield - miny_default)
                                  / (maxy_default - miny_default))))%Qc).
  { unfold include_yield_req, max_.
    set (q := ((end_yield - miny_default)
               / (maxy_default - miny_default))%Qc).
    clearbody q. qc_cases; qc_linear. }
  set (y := include_yield_req v _) in *. clearbody y. qc_linear.
Qed.

Lemma input_nue_without_dates (n_input n_seed : Qc)
    (no3_depo nh4_depo : option Qc) :
  input_nue n_input None None None n_seed no3_depo nh4_depo
  = Ok (n_input + n_seed
        + match nh4_depo, no3_depo with
          | Some nh4, Some no3 => nh4 + no3
          | _, _ => num 9 + num 3
          end)%Qc.
Proof.
  unfold input_nue.
  destruct no3_depo as [no3 |], nh4_depo as [nh4 |]; reflexivity.
Qed.

(** X24. [calculate_reward_nue] uses the year only together with both
    dates: when the year, the start or the end is missing, the nitrogen
    input is the fertiliser plus 3.5 of seed plus the deposition, which is
    [nh4_depo + no3_depo] when both are given and the constant 9 + 3
    otherwise, whatever the year.  The call raises [ZeroDivisionError]
    when that input is zero; otherwise it returns [formula_nue] of the
    surplus [input - n_output], the efficiency [n_output / input] and the
    cumulative positive reward, a number that is not negative. *)
Theorem reward_nue_without_dates (self : ContainerEND.t)
    (n_fertilized n_output : Qc) (year : option Z)
    (start end_ : option datetime.date) (no3_depo nh4_depo : option Qc) :
  year = None \/ start = None \/ end_ = None ->
  let n_depo :=
    match nh4_depo, no3_depo with
    | Some nh4, Some no3 => (nh4 + no3)%Qc
    | _, _ => (num 9 + num 3)%Qc
    end in
  let n_in := (n_fertilized + n_seed_default + n_depo)%Qc in
  (n_in = 0%Qc ->
   ContainerNUE_methods.calculate_reward_nue self n_fertilized n_output year
     start end_ no3_depo nh4_depo
   = Raise ZeroDivisionError)
  /\ (n_in <> 0%Qc ->
      exists v,
        ContainerNUE_methods.calculate_reward_nue self n_fertilized n_output
          year start end_ no3_depo nh4_depo
        = Ok v
        /\ (0 <= v)%Qc
        /\ formula_nue (n_in - n_output)%Qc (n_output / n_in)%Qc
             (ContainerEND.cum_positive_reward self) false
           = Ok v).
Proof.
  intros Hmissing n_depo n_in.
  unfold ContainerNUE_methods.calculate_reward_nue.
  assert (Hcond : bool_decide (year = None) || bool_decide (start = None)
                  || bool_decide (end_ = None) = true).
  { destruct Hmissing as [-> | [-> | ->]];
      rewrite ?orb_true_r; reflexivity. }
  rewrite Hcond. unfold calculate_nue, get_surplus_n.
  rewrite input_nue_without_dates. fold n_depo. fold n_in.
  cbn [mbind result_bind]. split.
  - intros Hzero. rewrite Hzero, truediv_zero. reflexivity.
  - intros Hpos. rewrite (truediv_ok _ _ Hpos). cbn [mbind result_bind].
    unfold ContainerEND.dump_cumulative_positive_reward.
    destruct (formula_nue_nonnegative (n_in - n_output)%Qc
                (n_output / n_in)%Qc (ContainerEND.cum_positive_reward self))
      as (v & Hv & Hnonneg).
    exists v. rewrite Hv. repeat split. exact Hnonneg.
Qed.

Lemma reward_nue_without_dates_witness :
  ContainerNUE_methods.calculate_reward_nue (ContainerEND.init 7 (num 10))
    (num (-15.5)) (num 50) (Some 2002) None None None None
  = Raise ZeroDivisionError.
Proof.
  apply (proj1 (reward_nue_without_dates (ContainerEND.init 7 (num 10))
                  (num (-15.5)) (num 50) (Some 2002) None None None None
                  ltac:(right; left; reflexivity))).
  qc_closed.
Defined.
